(** * The API-gateway dashboard: polling state machine and bounded history

    A shallow embedding of the React component [App] of the dashboard
    front end (the authenticated viewer: API-key gate, dual polling of
    [/metrics] and [/health], twenty-sample history, three-way render).

    - JavaScript values are an inductive type [value]; numbers are IEEE
      binary64, i.e. Rocq's primitive floats; strings are sequences of
      UTF-16 code units.
    - The seven [useState] cells are the record [AppState]; every event
      handler and every continuation of an [await] is a function on it.
    - The browser and React around the component (the interval timer,
      the requests in flight, the [useEffect] on [connected]) are the
      record [Runtime] with a step function over [Event]s.
    - [render] is the element tree the component function returns;
      [mountable] says whether React accepts its children, and
      [live_step] is a step of the component that stays on screen. *)

From Stdlib Require Import String Ascii.
From Stdlib Require Import List NArith ZArith Bool Arith Lia PrimFloat.
Import ListNotations.

Set Warnings "-register-all".

(** ** JavaScript strings and values *)

Module JS.

(** A string is its sequence of UTF-16 code units. *)
Definition jsstring := list N.

(** String literals of the source, written as Rocq strings. *)
Definition lit (s : string) : jsstring :=
  map N_of_ascii (list_ascii_of_string s).

Definition str_eqb (a b : jsstring) : bool :=
  if list_eq_dec N.eq_dec a b then true else false.

(** ECMAScript [WhiteSpace] and [LineTerminator] code points, the ones
    [String.prototype.trim] strips. *)
Definition is_whitespace (c : N) : bool :=
  match c with
  | 9%N | 10%N | 11%N | 12%N | 13%N | 32%N | 160%N
  | 5760%N | 8232%N | 8233%N | 8239%N | 8287%N | 12288%N | 65279%N => true
  | _ => (8192 <=? c)%N && (c <=? 8202)%N
  end.

Fixpoint trimStart (s : jsstring) : jsstring :=
  match s with
  | c :: s' => if is_whitespace c then trimStart s' else s
  | [] => []
  end.

Definition trimEnd (s : jsstring) : jsstring := rev (trimStart (rev s)).

Definition trim (s : jsstring) : jsstring := trimEnd (trimStart s).

(** Values: what [JSON.parse] produces, together with [undefined].  An
    object is the list of its own properties. *)
Inductive value : Type :=
| VUndefined
| VNull
| VBool (b : bool)
| VNum (x : float)
| VStr (s : jsstring)
| VArr (items : list value)
| VObj (props : list (jsstring * value)).

(** [ToBoolean]: the falsy values are [undefined], [null], [false],
    [+0], [-0], [NaN] and the empty string. *)
Definition truthy (v : value) : bool :=
  match v with
  | VUndefined | VNull => false
  | VBool b => b
  | VNum x => negb (PrimFloat.is_zero x || PrimFloat.is_nan x)
  | VStr s => match s with [] => false | _ => true end
  | VArr _ | VObj _ => true
  end.

Definition nullish (v : value) : bool :=
  match v with
  | VUndefined | VNull => true
  | _ => false
  end.

(** [a || b] *)
Definition or_else (a b : value) : value := if truthy a then a else b.

Fixpoint lookup (k : jsstring) (props : list (jsstring * value)) : option value :=
  match props with
  | [] => None
  | (k', v) :: rest => if str_eqb k' k then Some v else lookup k rest
  end.

(** A computation either completes normally or throws. *)
Inductive completion (A : Type) : Type :=
| Normal (a : A)
| Throw.
Arguments Normal {A} a.
Arguments Throw {A}.

Definition bind {A B} (c : completion A) (k : A -> completion B) : completion B :=
  match c with
  | Normal a => k a
  | Throw => Throw
  end.

(** [v.k] for a property name [k] that no built-in prototype defines
    (the names the component reads: [detail], [status],
    [total_requests], ...).  Reading a property of [null] or
    [undefined] throws a [TypeError]; an object yields its own property
    or [undefined]; every other value yields [undefined]. *)
Definition get (v : value) (k : jsstring) : completion value :=
  match v with
  | VUndefined | VNull => Throw
  | VObj props =>
      Normal (match lookup k props with Some x => x | None => VUndefined end)
  | _ => Normal VUndefined
  end.

(** [v?.k] *)
Definition get_opt (v : value) (k : jsstring) : completion value :=
  if nullish v then Normal VUndefined else get v k.

(** [v === "literal"] *)
Definition strict_eq_lit (v : value) (s : jsstring) : bool :=
  match v with
  | VStr t => str_eqb t s
  | _ => false
  end.

(** [arr.slice(start)] *)
Definition slice {A} (start : Z) (arr : list A) : list A :=
  let len := Z.of_nat (length arr) in
  let k := if (start <? 0)%Z then Z.max (len + start) 0 else Z.min start len in
  skipn (Z.to_nat k) arr.

End JS.
Import JS.

Notation "x <- c ;; k" := (bind c (fun x => k))
  (at level 61, c at next level, right associativity).

(** ** The component's state *)

(** One element of [history]:
    [{ time, requests, rateLimited }]. *)
Record Sample : Type := mkSample {
  time : jsstring;
  requests : value;
  rateLimited : value
}.

(** The seven [useState] cells of [App], with their names. *)
Record AppState : Type := mkApp {
  apiKey : jsstring;
  connected : bool;
  darkMode : bool;
  metrics : value;
  history : list Sample;
  health : value;
  error : value
}.

(** The initial values passed to [useState]. *)
Definition initial : AppState :=
  {| apiKey := lit "";
     connected := false;
     darkMode := true;
     metrics := VNull;
     history := [];
     health := VNull;
     error := VNull |}.

Definition setApiKey (v : jsstring) (s : AppState) : AppState :=
  {| apiKey := v; connected := connected s; darkMode := darkMode s;
     metrics := metrics s; history := history s; health := health s;
     error := error s |}.

Definition setConnected (b : bool) (s : AppState) : AppState :=
  {| apiKey := apiKey s; connected := b; darkMode := darkMode s;
     metrics := metrics s; history := history s; health := health s;
     error := error s |}.

Definition setDarkMode (b : bool) (s : AppState) : AppState :=
  {| apiKey := apiKey s; connected := connected s; darkMode := b;
     metrics := metrics s; history := history s; health := health s;
     error := error s |}.

Definition setMetrics (v : value) (s : AppState) : AppState :=
  {| apiKey := apiKey s; connected := connected s; darkMode := darkMode s;
     metrics := v; history := history s; health := health s;
     error := error s |}.

Definition setHistory (h : list Sample) (s : AppState) : AppState :=
  {| apiKey := apiKey s; connected := connected s; darkMode := darkMode s;
     metrics := metrics s; history := h; health := health s;
     error := error s |}.

Definition setHealth (v : value) (s : AppState) : AppState :=
  {| apiKey := apiKey s; connected := connected s; darkMode := darkMode s;
     metrics := metrics s; history := history s; health := v;
     error := error s |}.

Definition setError (v : value) (s : AppState) : AppState :=
  {| apiKey := apiKey s; connected := connected s; darkMode := darkMode s;
     metrics := metrics s; history := history s; health := health s;
     error := v |}.

(** ** The network as the component sees it *)

(** What [await fetch(...)] delivers: the promise rejects (server not
    reachable), or it resolves to a response with a status code and a
    body; [body = None] is a body on which [res.json()] rejects. *)
Record Response : Type := mkResponse {
  status : N;
  body : option value
}.

Inductive FetchResult : Type :=
| Rejected
| Responded (res : Response).

(** [res.ok]: the status is in the range 200-299. *)
Definition ok (res : Response) : bool :=
  ((200 <=? status res) && (status res <=? 299))%N.

(** [await res.json()] *)
Definition json (res : Response) : completion value :=
  match body res with
  | Some v => Normal v
  | None => Throw
  end.

(** ** fetchMetrics *)

(** The functional update passed to [setHistory]:
    [(prev) => [...prev.slice(-19), { time: now, requests:
    data.total_requests, rateLimited: data.rate_limited_requests }]],
    where [now] is [new Date().toLocaleTimeString()]. *)
Definition historyUpdater (data : value) (now : jsstring)
    (prev : list Sample) : completion (list Sample) :=
  r <- get data (lit "total_requests") ;;
  rl <- get data (lit "rate_limited_requests") ;;
  Normal (slice (-19) prev ++ [ {| time := now; requests := r; rateLimited := rl |} ]).

(** The body of the [try] block, from the point where the [fetch]
    promise settles.  It ends either with the state updates it queued
    (the history one still a function of the previous history) or by
    throwing into the [catch]. *)
Definition fetchMetrics_try (r : FetchResult) (now : jsstring) (s : AppState)
    : completion (AppState * option (list Sample -> completion (list Sample))) :=
  match r with
  | Rejected => Throw
  | Responded res =>
      if negb (ok res) then
        err <- json res ;;
        d <- get err (lit "detail") ;;
        Normal (setConnected false
                  (setError (or_else d (VStr (lit "Invalid API key"))) s), None)
      else
        data <- json res ;;
        Normal (setError VNull (setMetrics data s), Some (historyUpdater data now))
  end.

(** [fetchMetrics], from the point where the request settles.  React
    applies the queued updates in one batch; when the history updater
    throws there, no [catch] of the component is around it and React
    unmounts the tree: the result is [None]. *)
Definition fetchMetrics (r : FetchResult) (now : jsstring) (s : AppState)
    : option AppState :=
  match fetchMetrics_try r now s with
  | Normal (s', None) => Some s'
  | Normal (s', Some upd) =>
      match upd (history s') with
      | Normal h => Some (setHistory h s')
      | Throw => None
      end
  | Throw => Some (setError (VStr (lit "Server not reachable")) s)
  end.

(** ** fetchHealth *)

Definition down : value := VObj [ (lit "status", VStr (lit "down")) ].

Definition fetchHealth (r : FetchResult) (s : AppState) : AppState :=
  let attempt :=
    match r with
    | Rejected => Throw
    | Responded res => data <- json res ;; Normal (setHealth data s)
    end in
  match attempt with
  | Normal s' => s'
  | Throw => setHealth down s
  end.

(** ** Button and input handlers *)

(** [onChange] of the key input. *)
Definition onChange (v : jsstring) (s : AppState) : AppState := setApiKey v s.

(** [onClick] of the Connect button. *)
Definition connectClick (s : AppState) : AppState :=
  match trim (apiKey s) with
  | [] => setError (VStr (lit "Please enter API key")) s
  | _ => setConnected true (setMetrics VNull (setHistory [] s))
  end.

(** [onClick] of the Logout button. *)
Definition logoutClick (s : AppState) : AppState :=
  setApiKey (lit "") (setConnected false s).

(** [onClick] of the theme button. *)
Definition toggleDarkMode (s : AppState) : AppState :=
  setDarkMode (negb (darkMode s)) s.

(** ** Render *)

(** What the dashboard branch displays: the four cards, the chart data
    built from [history], and the health indicator.  (The alert class
    of the Rate Limited card and the styling are presentation and are
    left out.) *)
Record DashboardData : Type := mkDashboard {
  dark : bool;
  totalRequests : value;
  rateLimitedRequests : value;
  averageLatency : value;
  p95Latency : value;
  labels : list jsstring;
  requestsSeries : list value;
  rateLimitedSeries : list value;
  healthy : bool
}.

Inductive View : Type :=
| LoginView (message : option value) (input : jsstring)
| LoadingView
| DashboardView (d : DashboardData).

(** A property read whose receiver is known not to be nullish. *)
Definition read (v : value) (k : jsstring) : value :=
  match get v k with
  | Normal x => x
  | Throw => VUndefined
  end.

(** [health?.status === "healthy"] *)
Definition healthIndicator (h : value) : bool :=
  match get_opt h (lit "status") with
  | Normal st => strict_eq_lit st (lit "healthy")
  | Throw => false
  end.

(** The element tree [App] returns: the three branches in source order.
    The function [App] itself does not throw on any state; whether
    React can put the tree it returns on screen is decided by
    [mountable] below, and the two are combined in [live_step]. *)
Definition render (s : AppState) : View :=
  if negb (connected s) then
    LoginView (if truthy (error s) then Some (error s) else None) (apiKey s)
  else if negb (truthy (metrics s)) then
    LoadingView
  else
    DashboardView
      {| dark := darkMode s;
         totalRequests := read (metrics s) (lit "total_requests");
         rateLimitedRequests := read (metrics s) (lit "rate_limited_requests");
         averageLatency := read (metrics s) (lit "average_latency_ms");
         p95Latency := read (metrics s) (lit "p95_latency_ms");
         labels := map time (history s);
         requestsSeries := map requests (history s);
         rateLimitedSeries := map rateLimited (history s);
         healthy := healthIndicator (health s) |}.

(** ** The component in its environment *)

(** Around the state: the interval registered by the polling effect
    (with the [apiKey] its closure captured), and the requests that
    have been sent and not yet settled (a [/metrics] request with the
    [x-api-key] header it carries). *)
Record Runtime : Type := mkRuntime {
  app : AppState;
  interval : option jsstring;
  metricsInFlight : list jsstring;
  healthInFlight : nat
}.

Definition start : Runtime :=
  {| app := initial; interval := None; metricsInFlight := []; healthInFlight := 0 |}.

(** One call of [fetchMetrics(); fetchHealth();] up to the two
    [await fetch(...)]: both requests leave. *)
Definition issueFetches (key : jsstring) (rt : Runtime) : Runtime :=
  {| app := app rt;
     interval := interval rt;
     metricsInFlight := metricsInFlight rt ++ [key];
     healthInFlight := S (healthInFlight rt) |}.

(** The [useEffect] with dependency list [[connected]], run after the
    commit of state [s']: nothing when [connected] did not change;
    otherwise the previous cleanup ([clearInterval], when the previous
    run had registered one), then the effect body. *)
Definition commit (rt : Runtime) (s' : AppState) : Runtime :=
  if Bool.eqb (connected (app rt)) (connected s') then
    {| app := s'; interval := interval rt;
       metricsInFlight := metricsInFlight rt; healthInFlight := healthInFlight rt |}
  else if connected s' then
    issueFetches (apiKey s')
      {| app := s'; interval := Some (apiKey s');
         metricsInFlight := metricsInFlight rt; healthInFlight := healthInFlight rt |}
  else
    {| app := s'; interval := None;
       metricsInFlight := metricsInFlight rt; healthInFlight := healthInFlight rt |}.

Inductive Event : Type :=
| Change (v : jsstring)
| ClickConnect
| ClickLogout
| ClickTheme
| Tick
| MetricsSettled (i : nat) (r : FetchResult) (now : jsstring)
| HealthSettled (r : FetchResult).

Fixpoint remove_nth {A} (i : nat) (l : list A) : list A :=
  match i, l with
  | _, [] => []
  | O, _ :: l' => l'
  | S i', x :: l' => x :: remove_nth i' l'
  end.

Definition settleMetrics (i : nat) (rt : Runtime) : Runtime :=
  {| app := app rt; interval := interval rt;
     metricsInFlight := remove_nth i (metricsInFlight rt);
     healthInFlight := healthInFlight rt |}.

Definition settleHealth (rt : Runtime) : Runtime :=
  {| app := app rt; interval := interval rt;
     metricsInFlight := metricsInFlight rt;
     healthInFlight := pred (healthInFlight rt) |}.

(** One event, as a transition of the state cells, the timer and the
    requests in flight.  [None]: the event cannot happen here (the
    control is not in the tree [App] returns, no timer is registered,
    no such request is in flight), or the history updater threw.
    Whether React can mount the tree of the new state is not decided
    here: [live_step] below adds that check. *)
Definition step (rt : Runtime) (e : Event) : option Runtime :=
  match e with
  | Change v =>
      match render (app rt) with
      | LoginView _ _ => Some (commit rt (onChange v (app rt)))
      | _ => None
      end
  | ClickConnect =>
      match render (app rt) with
      | LoginView _ _ => Some (commit rt (connectClick (app rt)))
      | _ => None
      end
  | ClickLogout =>
      match render (app rt) with
      | DashboardView _ => Some (commit rt (logoutClick (app rt)))
      | _ => None
      end
  | ClickTheme =>
      match render (app rt) with
      | DashboardView _ => Some (commit rt (toggleDarkMode (app rt)))
      | _ => None
      end
  | Tick =>
      match interval rt with
      | Some key => Some (issueFetches key rt)
      | None => None
      end
  | MetricsSettled i r now =>
      match nth_error (metricsInFlight rt) i with
      | Some _ =>
          match fetchMetrics r now (app rt) with
          | Some s' => Some (commit (settleMetrics i rt) s')
          | None => None
          end
      | None => None
      end
  | HealthSettled r =>
      match healthInFlight rt with
      | S _ => Some (commit (settleHealth rt) (fetchHealth r (app rt)))
      | O => None
      end
  end.

Fixpoint run (rt : Runtime) (es : list Event) : option Runtime :=
  match es with
  | [] => Some rt
  | e :: es' =>
      match step rt e with
      | Some rt' => run rt' es'
      | None => None
      end
  end.

(** The states the transitions reach from the start.  The states of
    the component on screen, [live] below, are among them. *)
Inductive reachable : Runtime -> Prop :=
| reach_start : reachable start
| reach_step rt e rt' : reachable rt -> step rt e = Some rt' -> reachable rt'.

(** ** What React can mount *)

(** The values React accepts as a child: strings and numbers are
    shown, [null], [undefined] and booleans show nothing, an array is
    the sequence of its items; a plain object is refused ("Objects are
    not valid as a React child"), and so is an array with one inside. *)
Fixpoint renderable (v : value) : bool :=
  match v with
  | VObj _ => false
  | VArr items =>
      (fix all (l : list value) : bool :=
         match l with
         | [] => true
         | x :: l' => renderable x && all l'
         end) items
  | _ => true
  end.

(** The children of the tree [App] returns that come from the state:
    [{error}] in the Login branch (the [<p>] is there when [error] is
    truthy), and [{value}] in each of the four [MetricCard]s. *)
Definition mountable (v : View) : bool :=
  match v with
  | LoginView (Some message) _ => renderable message
  | LoginView None _ => true
  | LoadingView => true
  | DashboardView d =>
      renderable (totalRequests d) && renderable (rateLimitedRequests d) &&
      renderable (averageLatency d) && renderable (p95Latency d)
  end.

(** React has the tree of state [s] on screen. *)
Definition mounts (s : AppState) : bool := mountable (render s).

(** One event of the component on screen.  [None]: the event cannot
    happen, or React throws while mounting the tree of the new state
    and, no error boundary being there, unmounts everything. *)
Definition live_step (rt : Runtime) (e : Event) : option Runtime :=
  if mounts (app rt) then
    match step rt e with
    | Some rt' => if mounts (app rt') then Some rt' else None
    | None => None
    end
  else None.

Fixpoint live_run (rt : Runtime) (es : list Event) : option Runtime :=
  match es with
  | [] => Some rt
  | e :: es' =>
      match live_step rt e with
      | Some rt' => live_run rt' es'
      | None => None
      end
  end.

(** The states the component on screen can be in. *)
Inductive live : Runtime -> Prop :=
| live_start : live start
| live_next rt e rt' : live rt -> live_step rt e = Some rt' -> live rt'.

(** ** Sequences of polls *)

(** A poll that succeeded: an ok response whose body is JSON and not
    [null]. *)
Definition successful (r : FetchResult) : bool :=
  match r with
  | Responded res =>
      ok res && match body res with Some data => negb (nullish data) | None => false end
  | Rejected => false
  end.

(** A poll that failed: the request was rejected, the response is not
    ok, or its body is not JSON. *)
Definition failed (r : FetchResult) : bool :=
  match r with
  | Responded res =>
      negb (ok res) || match body res with Some _ => false | None => true end
  | Rejected => true
  end.

(** The sample a successful poll contributes. *)
Definition sampleOf (p : FetchResult * jsstring) : Sample :=
  match fst p with
  | Responded {| body := Some data |} =>
      {| time := snd p;
         requests := read data (lit "total_requests");
         rateLimited := read data (lit "rate_limited_requests") |}
  | _ => {| time := snd p; requests := VUndefined; rateLimited := VUndefined |}
  end.

(** The polls of a list settle one after the other. *)
Fixpoint polls (ps : list (FetchResult * jsstring)) (s : AppState) : option AppState :=
  match ps with
  | [] => Some s
  | (r, now) :: ps' =>
      match fetchMetrics r now s with
      | Some s' => polls ps' s'
      | None => None
      end
  end.

(** ** The polling effect seen from outside *)

(** What holds between the state, the timer and the requests in
    flight: while connected, the interval is registered and the key
    its closure captured is the current [apiKey], which is not blank;
    while disconnected no interval is registered; and no [/metrics]
    request in flight carries a blank key. *)
Definition polling_invariant (rt : Runtime) : Prop :=
  (connected (app rt) = true ->
     interval rt = Some (apiKey (app rt)) /\ trim (apiKey (app rt)) <> []) /\
  (connected (app rt) = false -> interval rt = None) /\
  Forall (fun key => trim key <> []) (metricsInFlight rt).

(** The polls that end in the [catch] block of [fetchMetrics]: the
    request is rejected, [res.json()] rejects, or [err.detail] is read
    off a [null] body of a non-ok response. *)
Definition caught (r : FetchResult) : bool :=
  match r with
  | Rejected => true
  | Responded res =>
      match body res with
      | None => true
      | Some err => negb (ok res) && nullish err
      end
  end.

Definition isMetricsSettled (e : Event) : bool :=
  match e with
  | MetricsSettled _ _ _ => true
  | _ => false
  end.

(** Events of a server that cannot be reached: ticks, health
    responses of any kind, and metrics polls that end in the [catch]. *)
Definition unreachableServer (e : Event) : bool :=
  match e with
  | Tick | HealthSettled _ => true
  | MetricsSettled _ r _ => caught r
  | _ => false
  end.

(** ** The unauthenticated viewer *)

(** The component of [frontend/dashboard/src/App.js] that fetches
    [/metrics] once, without a key, and lists the endpoint hits. *)
Module Viewer.

Fixpoint digits (u : Decimal.uint) : jsstring :=
  match u with
  | Decimal.Nil => []
  | Decimal.D0 u' => 48%N :: digits u'
  | Decimal.D1 u' => 49%N :: digits u'
  | Decimal.D2 u' => 50%N :: digits u'
  | Decimal.D3 u' => 51%N :: digits u'
  | Decimal.D4 u' => 52%N :: digits u'
  | Decimal.D5 u' => 53%N :: digits u'
  | Decimal.D6 u' => 54%N :: digits u'
  | Decimal.D7 u' => 55%N :: digits u'
  | Decimal.D8 u' => 56%N :: digits u'
  | Decimal.D9 u' => 57%N :: digits u'
  end.

(** The property key of index [i]: its decimal numeral. *)
Definition index_key (i : nat) : jsstring := digits (Nat.to_uint i).

Fixpoint indexed {A} (i : nat) (l : list A) : list (jsstring * A) :=
  match l with
  | [] => []
  | x :: l' => (index_key i, x) :: indexed (S i) l'
  end.

(** [Object.entries(v)]: a [TypeError] on [undefined] and [null]; the
    own properties of an object, in the order of its property list;
    index and element for an array; index and one-unit string for a
    string; nothing for a number or a boolean. *)
Definition entries (v : value) : completion (list (jsstring * value)) :=
  match v with
  | VUndefined | VNull => Throw
  | VObj props => Normal props
  | VArr items => Normal (indexed 0 items)
  | VStr s => Normal (indexed 0 (map (fun c => VStr [c]) s))
  | VBool _ | VNum _ => Normal []
  end.

(** What the viewer returns: the loading line, or the overview with
    its four figures and one list item per endpoint. *)
Inductive Page : Type :=
| Loading
| Overview (totalRequests rateLimitedRequests averageLatency persistedEvents : value)
           (endpointHits : list (jsstring * value)).

(** The return value of the component function for the state
    [metrics]; it throws when [Object.entries] does. *)
Definition element (metrics : value) : completion Page :=
  if negb (truthy metrics) then Normal Loading
  else
    total <- get metrics (lit "total_requests") ;;
    limited <- get metrics (lit "rate_limited_requests") ;;
    latency <- get metrics (lit "average_latency_ms") ;;
    persisted <- get metrics (lit "persisted_events") ;;
    hits <- get metrics (lit "endpoint_hits") ;;
    items <- entries hits ;;
    Normal (Overview total limited latency persisted items).

(** The children that come from the state: the four figures, and in
    each list item the endpoint (a string) and its count. *)
Definition mountable (p : Page) : bool :=
  match p with
  | Loading => true
  | Overview total limited latency persisted items =>
      renderable total && renderable limited &&
      renderable latency && renderable persisted &&
      forallb (fun item => renderable (snd item)) items
  end.

(** What React puts on the page for the state [metrics]: it throws,
    and the page is unmounted, when the component function throws and
    when React refuses one of the children. *)
Definition render (metrics : value) : completion Page :=
  p <- element metrics ;;
  if mountable p then Normal p else Throw.

End Viewer.

(** ** Concrete sessions *)

Module Scenario.

(** [{total_requests: n, rate_limited_requests: 0,
      average_latency_ms: 5, p95_latency_ms: 12}] *)
Definition snapshot (n : float) : value :=
  VObj [ (lit "total_requests", VNum n);
         (lit "rate_limited_requests", VNum 0);
         (lit "average_latency_ms", VNum 5);
         (lit "p95_latency_ms", VNum 12) ].

Definition ok200 (n : float) : FetchResult :=
  Responded {| status := 200; body := Some (snapshot n) |}.

(** Status 401 with body [{detail: "bad key"}]. *)
Definition badKey : FetchResult :=
  Responded {| status := 401;
               body := Some (VObj [ (lit "detail", VStr (lit "bad key")) ]) |}.

(** Status 401 with body [{detail: ""}]. *)
Definition emptyDetail : FetchResult :=
  Responded {| status := 401;
               body := Some (VObj [ (lit "detail", VStr (lit "")) ]) |}.

Definition healthyBody : value := VObj [ (lit "status", VStr (lit "healthy")) ].

Definition isHealthy : FetchResult :=
  Responded {| status := 200; body := Some healthyBody |}.

(** The state reached by a list of events from the start. *)
Definition after (es : list Event) : Runtime :=
  match run start es with
  | Some rt => rt
  | None => start
  end.

(** Key typed, Connect clicked, first metrics and health received. *)
Definition firstPoll : list Event :=
  [ Change (lit "abc"); ClickConnect;
    MetricsSettled 0 (ok200 10) (lit "10:00:00"); HealthSettled isHealthy ].

(** Twenty-five successful polls, total_requests growing by ten from
    one poll to the next. *)
Definition counts : list float :=
  [ 10; 20; 30; 40; 50;  60; 70; 80; 90; 100;
    110; 120; 130; 140; 150;  160; 170; 180; 190; 200;
    210; 220; 230; 240; 250 ]%float.

Definition twentyFive : list (FetchResult * jsstring) :=
  map (fun n => (ok200 n, lit "10:00:00")) counts.

(** A session against a server that is down: every request is rejected. *)
Definition serverDown : list Event :=
  [ MetricsSettled 0 Rejected (lit "10:00:00"); HealthSettled Rejected; Tick;
    MetricsSettled 0 Rejected (lit "10:00:02") ].

End Scenario.

(** * Properties *)

(** ** Auxiliary facts *)

Lemma run_app es1 es2 rt :
  run rt (es1 ++ es2) =
  match run rt es1 with Some rt' => run rt' es2 | None => None end.
Proof.
  revert rt; induction es1 as [|e es1 IH]; intros rt; simpl; [reflexivity|].
  destruct (step rt e); [apply IH | reflexivity].
Qed.

Lemma run_reachable es : forall rt rt',
  reachable rt -> run rt es = Some rt' -> reachable rt'.
Proof.
  induction es as [|e es IH]; simpl; intros rt rt' Hr H.
  - now inversion H; subst.
  - destruct (step rt e) as [rt1|] eqn:E; [|discriminate].
    eapply IH; [eapply reach_step; eassumption | exact H].
Qed.

Lemma slice_last19 {A} (l : list A) :
  slice (-19) l = skipn (length l - 19) l.
Proof.
  unfold slice. simpl. f_equal. lia.
Qed.

Lemma trimStart_nil s :
  trimStart s = [] <-> forallb is_whitespace s = true.
Proof.
  induction s as [|c s IH]; simpl; [tauto|].
  destruct (is_whitespace c); simpl; [exact IH|].
  split; discriminate.
Qed.

(** [!s.trim()] holds exactly for the strings made of white space. *)
Lemma trim_nil s :
  trim s = [] <-> forallb is_whitespace s = true.
Proof.
  unfold trim, trimEnd. split.
  - intros H. apply trimStart_nil.
    assert (H' : trimStart (rev (trimStart s)) = []).
    { rewrite <- (rev_involutive (trimStart (rev (trimStart s)))), H. reflexivity. }
    apply trimStart_nil in H'. rewrite forallb_forall in H'.
    destruct (trimStart s) as [|c t] eqn:E; [reflexivity|].
    assert (Hc : is_whitespace c = true) by (apply H', in_rev; rewrite rev_involutive; now left).
    clear -E Hc. exfalso. induction s as [|d s IH]; simpl in E; [discriminate|].
    destruct (is_whitespace d) eqn:D; [auto|]. congruence.
  - intros H. apply trimStart_nil in H. rewrite H. reflexivity.
Qed.

Lemma read_get v k : nullish v = false -> get v k = Normal (read v k).
Proof.
  unfold read; destruct v; simpl; intros H; try discriminate; reflexivity.
Qed.

Lemma render_login s :
  connected s = false ->
  render s = LoginView (if truthy (error s) then Some (error s) else None) (apiKey s).
Proof.
  intros H. unfold render. rewrite H. reflexivity.
Qed.

Lemma render_dashboard_connected s d :
  render s = DashboardView d -> connected s = true.
Proof.
  unfold render. destruct (connected s); [reflexivity|discriminate].
Qed.

Lemma commit_unchanged rt s' :
  connected s' = connected (app rt) ->
  commit rt s' =
    {| app := s'; interval := interval rt;
       metricsInFlight := metricsInFlight rt; healthInFlight := healthInFlight rt |}.
Proof.
  intros H. unfold commit. rewrite H, eqb_reflx. reflexivity.
Qed.

Lemma commit_connect rt s' :
  connected (app rt) = false -> connected s' = true ->
  commit rt s' =
    {| app := s'; interval := Some (apiKey s');
       metricsInFlight := metricsInFlight rt ++ [apiKey s'];
       healthInFlight := S (healthInFlight rt) |}.
Proof.
  intros H H'. unfold commit. rewrite H, H'. reflexivity.
Qed.

Lemma commit_disconnect rt s' :
  connected (app rt) = true -> connected s' = false ->
  commit rt s' =
    {| app := s'; interval := None;
       metricsInFlight := metricsInFlight rt; healthInFlight := healthInFlight rt |}.
Proof.
  intros H H'. unfold commit. rewrite H, H'. reflexivity.
Qed.

Lemma app_commit rt s' : app (commit rt s') = s'.
Proof.
  unfold commit.
  destruct (Bool.eqb (connected (app rt)) (connected s')); [reflexivity|].
  destruct (connected s'); reflexivity.
Qed.

Lemma step_metrics rt i r now s' :
  i < length (metricsInFlight rt) ->
  fetchMetrics r now (app rt) = Some s' ->
  step rt (MetricsSettled i r now) = Some (commit (settleMetrics i rt) s').
Proof.
  intros Hi Hf. simpl.
  destruct (nth_error (metricsInFlight rt) i) eqn:E.
  - rewrite Hf. reflexivity.
  - apply nth_error_None in E. lia.
Qed.

Lemma step_change rt v :
  connected (app rt) = false ->
  step rt (Change v) = Some (commit rt (onChange v (app rt))).
Proof.
  intros H. simpl. rewrite (render_login _ H). reflexivity.
Qed.

Lemma step_connect rt :
  connected (app rt) = false ->
  step rt ClickConnect = Some (commit rt (connectClick (app rt))).
Proof.
  intros H. simpl. rewrite (render_login _ H). reflexivity.
Qed.

Lemma commit_no_timer rt s' :
  (connected (app rt) = false -> interval rt = None) ->
  connected s' = false -> interval (commit rt s') = None.
Proof.
  intros Hinv H. unfold commit. rewrite H.
  destruct (connected (app rt)); simpl; [reflexivity|auto].
Qed.

(** While disconnected no interval is registered. *)
Lemma disconnected_no_timer rt :
  reachable rt -> connected (app rt) = false -> interval rt = None.
Proof.
  induction 1 as [|rt e rt' Hr IH Hs]; [reflexivity|].
  intros Hc. destruct e; simpl in Hs.
  - destruct (render (app rt)); inversion Hs; subst; clear Hs.
    rewrite app_commit in Hc. now apply commit_no_timer.
  - destruct (render (app rt)); inversion Hs; subst; clear Hs.
    rewrite app_commit in Hc. now apply commit_no_timer.
  - destruct (render (app rt)); inversion Hs; subst; clear Hs.
    rewrite app_commit in Hc. now apply commit_no_timer.
  - destruct (render (app rt)); inversion Hs; subst; clear Hs.
    rewrite app_commit in Hc. now apply commit_no_timer.
  - destruct (interval rt) eqn:E; inversion Hs; subst; clear Hs.
    simpl in Hc. specialize (IH Hc). congruence.
  - destruct (nth_error (metricsInFlight rt) i); [|discriminate].
    destruct (fetchMetrics r now (app rt)); inversion Hs; subst; clear Hs.
    rewrite app_commit in Hc. now apply commit_no_timer.
  - destruct (healthInFlight rt); inversion Hs; subst; clear Hs.
    rewrite app_commit in Hc. now apply commit_no_timer.
Qed.

(** What a successful poll does to the state. *)
Lemma fetchMetrics_success r now s :
  successful r = true ->
  exists res data,
    r = Responded res /\ body res = Some data /\
    fetchMetrics r now s =
      Some (setHistory (slice (-19) (history s) ++ [sampleOf (r, now)])
              (setError VNull (setMetrics data s))).
Proof.
  destruct r as [|res]; simpl; [discriminate|].
  destruct res as [st [data|]]; unfold ok; simpl; intros H;
    apply andb_prop in H; destruct H as [Hok Hn]; [|discriminate].
  exists {| status := st; body := Some data |}, data.
  repeat split. unfold fetchMetrics, fetchMetrics_try, ok, json; simpl.
  rewrite Hok; simpl. unfold historyUpdater.
  apply negb_true_iff in Hn.
  rewrite !read_get by exact Hn. reflexivity.
Qed.

(** What a failed poll does to the state: one of the three messages,
    and the disconnect on the branch that read the body. *)
Lemma fetchMetrics_failure r now s :
  failed r = true ->
  exists msg, truthy msg = true /\
    (fetchMetrics r now s = Some (setError msg s) \/
     fetchMetrics r now s = Some (setConnected false (setError msg s))).
Proof.
  destruct r as [|res]; simpl.
  - intros _. exists (VStr (lit "Server not reachable")). split; [reflexivity|now left].
  - destruct res as [st b]; unfold fetchMetrics, fetchMetrics_try, json; simpl.
    destruct (ok {| status := st; body := b |}) eqn:Hok; simpl.
    + destruct b as [data|]; [discriminate|]. intros _.
      exists (VStr (lit "Server not reachable")). split; [reflexivity|now left].
    + intros _. destruct b as [err|]; simpl.
      * destruct (get err (lit "detail")) as [d|] eqn:G; simpl.
        -- exists (or_else d (VStr (lit "Invalid API key"))). split; [|now right].
           unfold or_else. destruct (truthy d) eqn:T; [exact T|reflexivity].
        -- exists (VStr (lit "Server not reachable")). split; [reflexivity|now left].
      * exists (VStr (lit "Server not reachable")). split; [reflexivity|now left].
Qed.

Lemma polls_app ps1 ps2 s :
  polls (ps1 ++ ps2) s =
  match polls ps1 s with Some s' => polls ps2 s' | None => None end.
Proof.
  revert s; induction ps1 as [|[r now] ps1 IH]; intros s; simpl; [reflexivity|].
  destruct (fetchMetrics r now s); [apply IH | reflexivity].
Qed.

(** After successful polls from an empty history, the history is the
    tail of the list of their samples that starts twenty from the end. *)
Lemma polls_window ps : forall s,
  history s = [] ->
  forallb (fun p => successful (fst p)) ps = true ->
  exists s',
    polls ps s = Some s' /\
    history s' = skipn (length ps - 20) (map sampleOf ps).
Proof.
  induction ps as [|[r now] ps IH] using rev_ind; intros s Hs Hall.
  - exists s. split; [reflexivity|]. simpl. exact Hs.
  - rewrite forallb_app in Hall. apply andb_prop in Hall. destruct Hall as [Hall Hp].
    simpl in Hp. rewrite andb_true_r in Hp.
    destruct (IH s Hs Hall) as [s1 [Hrun Hh]].
    destruct (fetchMetrics_success r now s1 Hp) as [res [data [_ [_ Hf]]]].
    rewrite polls_app, Hrun. simpl. rewrite Hf.
    eexists; split; [reflexivity|]. simpl.
    rewrite slice_last19, Hh, skipn_skipn, map_app, skipn_app, length_app.
    rewrite length_skipn, length_map. simpl.
    replace (length ps + 1 - 20 - length ps) with 0 by lia. simpl.
    f_equal. f_equal. lia.
Qed.



Ltac view_cases :=
  repeat split; intros;
  repeat match goal with
         | H : exists _, _ |- _ => destruct H
         | H : _ /\ _ |- _ => destruct H
         end;
  try discriminate; try congruence; eauto.

(** ** Logout *)

(** C2, as the code has it: for every state, the Logout handler sets
    the credential to the empty string and the connection state to
    disconnected, and leaves every other cell -- the history buffer and
    the metrics snapshot among them -- as it was.  Clicked on the
    dashboard, it also clears the interval; requests in flight stay in
    flight. *)
Theorem logout_clears_key_and_connection :
  (forall s,
     logoutClick s =
       {| apiKey := lit ""; connected := false; darkMode := darkMode s;
          metrics := metrics s; history := history s; health := health s;
          error := error s |}) /\
  (forall rt d,
     render (app rt) = DashboardView d ->
     step rt ClickLogout =
       Some {| app := logoutClick (app rt); interval := None;
               metricsInFlight := metricsInFlight rt;
               healthInFlight := healthInFlight rt |}).
Proof.
  split; [reflexivity|].
  intros rt d Hr. simpl. rewrite Hr.
  rewrite commit_disconnect;
    [reflexivity | exact (render_dashboard_connected _ _ Hr) | reflexivity].
Qed.

(** C2 fails as stated: after the first poll of a session, Logout
    leaves one sample in the history and the snapshot in place. *)
Lemma logout_keeps_history_and_metrics :
  let rt := Scenario.after (Scenario.firstPoll ++ [ClickLogout]) in
  reachable rt /\
  apiKey (app rt) = lit "" /\ connected (app rt) = false /\
  length (history (app rt)) = 1 /\ metrics (app rt) = Scenario.snapshot 10 /\
  ~ (history (app rt) = [] /\ metrics (app rt) = VNull).
Proof.
  split.
  - apply (run_reachable (Scenario.firstPoll ++ [ClickLogout]) start _ reach_start).
    vm_compute. reflexivity.
  - vm_compute. repeat split. intros [H _]. discriminate H.
Qed.

(** ** The session gate *)

(** C5: with the Login view on screen, typing a candidate and clicking
    Connect.  A candidate that is blank after trimming only sets the
    error message: the connection state stays disconnected, history,
    metrics and health are as before, no timer is registered and no
    request leaves.  Any other candidate empties the history, drops the
    snapshot, connects, and is the credential as typed; the first
    request already carries it, nothing having checked it. *)
Theorem submit_gate : forall rt candidate,
  connected (app rt) = false ->
  exists rt',
    run rt [Change candidate; ClickConnect] = Some rt' /\
    match trim candidate with
    | [] =>
        app rt' =
          setError (VStr (lit "Please enter API key")) (setApiKey candidate (app rt)) /\
        connected (app rt') = false /\
        interval rt' = interval rt /\
        metricsInFlight rt' = metricsInFlight rt /\
        healthInFlight rt' = healthInFlight rt
    | _ =>
        app rt' =
          {| apiKey := candidate; connected := true; darkMode := darkMode (app rt);
             metrics := VNull; history := []; health := health (app rt);
             error := error (app rt) |} /\
        interval rt' = Some candidate /\
        metricsInFlight rt' = metricsInFlight rt ++ [candidate] /\
        healthInFlight rt' = S (healthInFlight rt)
    end.
Proof.
  intros rt candidate Hc.
  unfold run. rewrite (step_change _ candidate Hc).
  rewrite commit_unchanged by reflexivity.
  rewrite step_connect by exact Hc.
  eexists; split; [reflexivity|].
  unfold connectClick. simpl apiKey.
  destruct (trim candidate) as [|c t].
  - rewrite commit_unchanged by reflexivity.
    simpl. repeat split. exact Hc.
  - rewrite commit_connect by (exact Hc || reflexivity).
    simpl. repeat split.
Qed.

Lemma submit_gate_witness :
  (exists rt',
     run start [Change (lit "  "); ClickConnect] = Some rt' /\
     error (app rt') = VStr (lit "Please enter API key") /\
     connected (app rt') = false /\ metricsInFlight rt' = []) /\
  (exists rt',
     run start [Change (lit "abc"); ClickConnect] = Some rt' /\
     connected (app rt') = true /\ apiKey (app rt') = lit "abc" /\
     metricsInFlight rt' = [lit "abc"]).
Proof.
  split.
  - destruct (submit_gate start (lit "  ") eq_refl) as [rt' [Hrun H]].
    exists rt'. split; [exact Hrun|].
    simpl in H. destruct H as [Ha [Hc [_ [Hm _]]]].
    rewrite Ha. repeat split; assumption.
  - destruct (submit_gate start (lit "abc") eq_refl) as [rt' [Hrun H]].
    exists rt'. split; [exact Hrun|].
    simpl in H. destruct H as [Ha [_ [Hm _]]].
    rewrite Ha. repeat split; assumption.
Defined.

(** ** A non-ok metrics response *)

(** C1 fails as stated: the second poll of the session answers 401
    with [{detail: "bad key"}]; the session was connected and showed
    the dashboard, and is disconnected on the Login view afterwards,
    with the timer cleared. *)
Lemma non_ok_response_ends_session :
  let rt := Scenario.after (Scenario.firstPoll ++ [Tick]) in
  let rt' := Scenario.after (Scenario.firstPoll ++
               [Tick; MetricsSettled 0 Scenario.badKey (lit "10:00:02")]) in
  step rt (MetricsSettled 0 Scenario.badKey (lit "10:00:02")) = Some rt' /\
  connected (app rt) = true /\
  error (app rt') = VStr (lit "bad key") /\
  connected (app rt') <> connected (app rt) /\
  interval rt' = None /\
  step rt' Tick = None /\
  render (app rt') = LoginView (Some (VStr (lit "bad key"))) (lit "abc").
Proof.
  vm_compute. repeat split. discriminate.
Qed.

(** ** Responses that arrive after the disconnect *)

(** C3 fails as stated: the response to the request of the last tick
    arrives after Logout and changes both the history and the
    snapshot. *)
Lemma late_response_mutates_state :
  let rt := Scenario.after (Scenario.firstPoll ++ [Tick; ClickLogout]) in
  let rt' := Scenario.after (Scenario.firstPoll ++
               [Tick; ClickLogout; MetricsSettled 0 (Scenario.ok200 11) (lit "10:00:02")]) in
  reachable rt /\ connected (app rt) = false /\ interval rt = None /\
  step rt (MetricsSettled 0 (Scenario.ok200 11) (lit "10:00:02")) = Some rt' /\
  length (history (app rt)) = 1 /\ length (history (app rt')) = 2 /\
  metrics (app rt) = Scenario.snapshot 10 /\ metrics (app rt') = Scenario.snapshot 11 /\
  ~ (history (app rt') = history (app rt) /\ metrics (app rt') = metrics (app rt)).
Proof.
  split.
  - apply (run_reachable (Scenario.firstPoll ++ [Tick; ClickLogout]) start _ reach_start).
    vm_compute. reflexivity.
  - vm_compute. repeat split. intros [H _]. discriminate H.
Qed.

(** ** The history window *)

(** C4: from an empty history, after any list of successful polls the
    history has as many samples as there were polls, capped at twenty;
    it is the list of the polls' samples, in order, cut to the twenty
    most recent.  One more successful poll appends its sample, and
    beyond twenty drops exactly the oldest one.  After twenty-five
    polls the first sample carries the sixth poll's total_requests. *)
Theorem history_keeps_last_twenty : forall ps s,
  history s = [] ->
  forallb (fun p => successful (fst p)) ps = true ->
  exists s',
    polls ps s = Some s' /\
    length (history s') = min (length ps) 20 /\
    history s' = skipn (length ps - 20) (map sampleOf ps) /\
    (forall p, successful (fst p) = true ->
       exists s'',
         polls (ps ++ [p]) s = Some s'' /\
         history s'' =
           (if length ps <? 20 then history s' else tl (history s')) ++ [sampleOf p]) /\
    (length ps = 25 ->
       forall res now data,
         nth_error ps 5 = Some (Responded res, now) -> body res = Some data ->
         option_map requests (hd_error (history s')) =
           Some (read data (lit "total_requests"))).
Proof.
  intros ps s Hs Hall.
  destruct (polls_window ps s Hs Hall) as [s' [Hrun Hh]].
  assert (Hlen : length (history s') = min (length ps) 20).
  { rewrite Hh, length_skipn, length_map. lia. }
  exists s'. split; [exact Hrun|]. split; [exact Hlen|]. split; [exact Hh|]. split.
  - intros [r now] Hp. simpl in Hp.
    destruct (fetchMetrics_success r now s' Hp) as [res [data [_ [_ Hf]]]].
    rewrite polls_app, Hrun. simpl. rewrite Hf.
    eexists; split; [reflexivity|]. simpl. f_equal.
    rewrite slice_last19, Hlen.
    destruct (Nat.ltb_spec (length ps) 20) as [Hlt|Hge].
    + replace (min (length ps) 20 - 19) with 0 by lia. reflexivity.
    + replace (min (length ps) 20 - 19) with 1 by lia.
      destruct (history s'); reflexivity.
  - intros H25 res now data Hn Hb.
    rewrite Hh, H25. change (25 - 20) with 5.
    rewrite hd_error_skipn, nth_error_map, Hn. simpl.
    unfold sampleOf; simpl. destruct res as [st b]; simpl in Hb; subst b.
    reflexivity.
Qed.

Lemma history_keeps_last_twenty_witness :
  exists s',
    polls Scenario.twentyFive initial = Some s' /\
    length (history s') = 20 /\
    option_map requests (hd_error (history s')) = Some (VNum 60).
Proof.
  destruct (history_keeps_last_twenty Scenario.twentyFive initial eq_refl eq_refl)
    as [s' [Hrun [Hlen [_ [_ H6]]]]].
  exists s'. split; [exact Hrun|]. split; [exact Hlen|].
  exact (H6 eq_refl {| status := 200; body := Some (Scenario.snapshot 60) |}
            (lit "10:00:00") (Scenario.snapshot 60) eq_refl eq_refl).
Defined.

(** ** Failure and success of a metrics fetch *)

(** C6: a failed metrics fetch leaves the history as it is and sets the
    error; the successful fetch after it clears the error and appends
    exactly one sample, the new one (in front, [slice(-19)] keeps what
    the twenty-sample window allows). *)
Theorem failure_then_success : forall s r1 t1 r2 t2,
  failed r1 = true -> successful r2 = true ->
  exists s1 s2,
    fetchMetrics r1 t1 s = Some s1 /\
    history s1 = history s /\
    truthy (error s1) = true /\
    fetchMetrics r2 t2 s1 = Some s2 /\
    error s2 = VNull /\
    history s2 = slice (-19) (history s) ++ [sampleOf (r2, t2)] /\
    (length (history s) < 20 -> history s2 = history s ++ [sampleOf (r2, t2)]).
Proof.
  intros s r1 t1 r2 t2 H1 H2.
  destruct (fetchMetrics_failure r1 t1 s H1) as [msg [T Hf]].
  assert (H : exists s1, fetchMetrics r1 t1 s = Some s1 /\
                         history s1 = history s /\ error s1 = msg).
  { destruct Hf as [Hf|Hf]; eexists; (split; [exact Hf|]); split; reflexivity. }
  destruct H as [s1 [Hf1 [Hh1 He1]]].
  destruct (fetchMetrics_success r2 t2 s1 H2) as [res [data [_ [_ Hf2]]]].
  exists s1; eexists. split; [exact Hf1|]. split; [exact Hh1|].
  split; [rewrite He1; exact T|]. split; [exact Hf2|].
  simpl. rewrite Hh1. split; [reflexivity|]. split; [reflexivity|].
  intros Hlt. rewrite slice_last19.
  replace (length (history s) - 19) with 0 by lia. reflexivity.
Qed.

Lemma failure_then_success_witness :
  exists s1 s2,
    fetchMetrics Scenario.badKey (lit "10:00:02")
      (app (Scenario.after Scenario.firstPoll)) = Some s1 /\
    length (history s1) = 1 /\
    error s1 = VStr (lit "bad key") /\
    fetchMetrics (Scenario.ok200 11) (lit "10:00:04") s1 = Some s2 /\
    error s2 = VNull /\
    length (history s2) = 2.
Proof.
  destruct (failure_then_success (app (Scenario.after Scenario.firstPoll))
              Scenario.badKey (lit "10:00:02") (Scenario.ok200 11) (lit "10:00:04")
              eq_refl eq_refl)
    as [s1 [s2 [Hf1 [Hh1 [_ [Hf2 [He2 [Hh2 _]]]]]]]].
  exists s1, s2.
  assert (E : Some s1 = Some (setConnected false
                (setError (VStr (lit "bad key")) (app (Scenario.after Scenario.firstPoll)))))
    by (rewrite <- Hf1; reflexivity).
  injection E as E.
  split; [exact Hf1|]. split; [rewrite Hh1; reflexivity|].
  split; [rewrite E; reflexivity|]. split; [exact Hf2|]. split; [exact He2|].
  rewrite Hh2. reflexivity.
Defined.

(** ** The failure message *)

(** C7, as the code has it.  For a response that is not ok and whose
    body is JSON other than [null], the message is the body's [detail]
    when that is truthy, and "Invalid API key" when it is absent or
    falsy (the empty string, for one).  When the request is rejected,
    when the body is not JSON, and when the body of a non-ok response
    is [null], the message is "Server not reachable". *)
Theorem failure_message :
  (forall res err now s,
     ok res = false -> body res = Some err -> nullish err = false ->
     exists s',
       fetchMetrics (Responded res) now s = Some s' /\
       error s' = (if truthy (read err (lit "detail"))
                   then read err (lit "detail")
                   else VStr (lit "Invalid API key"))) /\
  (forall props, lookup (lit "detail") props = None ->
     read (VObj props) (lit "detail") = VUndefined) /\
  (forall props d, lookup (lit "detail") props = Some d ->
     read (VObj props) (lit "detail") = d) /\
  (forall res now s,
     ok res = false -> body res = Some VNull ->
     fetchMetrics (Responded res) now s =
       Some (setError (VStr (lit "Server not reachable")) s)) /\
  (forall res now s,
     body res = None ->
     fetchMetrics (Responded res) now s =
       Some (setError (VStr (lit "Server not reachable")) s)) /\
  (forall now s,
     fetchMetrics Rejected now s =
       Some (setError (VStr (lit "Server not reachable")) s)).
Proof.
  repeat split.
  - intros res err now s Hok Hb Hn.
    unfold fetchMetrics, fetchMetrics_try, json. rewrite Hok, Hb. simpl.
    rewrite read_get by exact Hn. simpl.
    eexists; split; reflexivity.
  - intros props L. unfold read; simpl. rewrite L. reflexivity.
  - intros props d L. unfold read; simpl. rewrite L. reflexivity.
  - intros res now s Hok Hb.
    unfold fetchMetrics, fetchMetrics_try, json. rewrite Hok, Hb. reflexivity.
  - intros res now s Hb.
    unfold fetchMetrics, fetchMetrics_try, json. rewrite Hb.
    destruct (ok res); reflexivity.
Qed.

(** C7 fails as stated: with status 401 and body [{detail: ""}] the
    detail field is present and is the empty string, and the message
    is "Invalid API key"; with status 500 and body [null] no detail is
    present, and the message is "Server not reachable". *)
Lemma empty_detail_gives_default :
  lookup (lit "detail") [ (lit "detail", VStr (lit "")) ] = Some (VStr (lit "")) /\
  option_map error (fetchMetrics Scenario.emptyDetail (lit "10:00:00") initial) =
    Some (VStr (lit "Invalid API key")) /\
  option_map error (fetchMetrics Scenario.emptyDetail (lit "10:00:00") initial) <>
    Some (VStr (lit "")) /\
  option_map error
    (fetchMetrics (Responded {| status := 500; body := Some VNull |})
       (lit "10:00:00") initial) =
    Some (VStr (lit "Server not reachable")).
Proof.
  vm_compute. repeat split. discriminate.
Qed.

(** ** Health *)


(** ** Health across sessions *)

(** C10: neither Connect nor Logout (nor typing a key, nor a metrics
    response) touches the health cell: Connect with a usable key resets
    the history and the snapshot and connects, Logout resets the key
    and the connection state.  So there is a reachable state in which
    the first dashboard of a second session shows Healthy from the
    health value of the first session, the second session's health
    request being still in flight. *)
Theorem health_outlives_session :
  (forall s, health (connectClick s) = health s) /\
  (forall s, trim (apiKey s) <> [] ->
     connectClick s =
       {| apiKey := apiKey s; connected := true; darkMode := darkMode s;
          metrics := VNull; history := []; health := health s; error := error s |}) /\
  (forall s,
     logoutClick s =
       {| apiKey := lit ""; connected := false; darkMode := darkMode s;
          metrics := metrics s; history := history s; health := health s;
          error := error s |}) /\
  (forall v s, health (onChange v s) = health s) /\
  (forall r now s s', fetchMetrics r now s = Some s' -> health s' = health s) /\
  (let first := Scenario.after Scenario.firstPoll in
   let second := Scenario.after (Scenario.firstPoll ++
                   [ClickLogout; Change (lit "xyz"); ClickConnect;
                    MetricsSettled 0 (Scenario.ok200 3) (lit "11:00:00")]) in
   reachable second /\
   healthInFlight first = 0 /\ healthInFlight second = 1 /\
   health (app second) = health (app first) /\
   health (app first) = Scenario.healthyBody /\
   apiKey (app second) = lit "xyz" /\
   exists d, render (app second) = DashboardView d /\ healthy d = true).
Proof.
  split.
  { intros s. unfold connectClick. destruct (trim (apiKey s)); reflexivity. }
  split.
  { intros s H. unfold connectClick. destruct (trim (apiKey s)); [congruence|reflexivity]. }
  split; [reflexivity|]. split; [reflexivity|]. split.
  { intros r now s s'. unfold fetchMetrics.
    destruct (fetchMetrics_try r now s) as [[s1 [upd|]]|] eqn:E.
    - destruct (upd (history s1)); [|discriminate].
      intros H; injection H as <-. simpl.
      unfold fetchMetrics_try in E. destruct r as [|res]; [discriminate|].
      destruct (negb (ok res)).
      + destruct (json res) as [err|]; [|discriminate]. simpl in E.
        destruct (get err (lit "detail")); discriminate.
      + destruct (json res) as [data|]; [|discriminate]. simpl in E.
        injection E as <- _. reflexivity.
    - intros H; injection H as <-.
      unfold fetchMetrics_try in E. destruct r as [|res]; [discriminate|].
      destruct (negb (ok res)).
      + destruct (json res) as [err|]; [|discriminate]. simpl in E.
        destruct (get err (lit "detail")); [|discriminate].
        injection E as <-. reflexivity.
      + destruct (json res) as [data|]; discriminate.
    - intros H; injection H as <-. reflexivity. }
  split.
  { apply (run_reachable
             (Scenario.firstPoll ++
                [ClickLogout; Change (lit "xyz"); ClickConnect;
                 MetricsSettled 0 (Scenario.ok200 3) (lit "11:00:00")])
             start _ reach_start).
    vm_compute. reflexivity. }
  vm_compute. repeat split. eexists. split; reflexivity.
Qed.

(** * Further properties of the component *)

(** ** Auxiliary facts *)

Lemma fetchMetrics_caught r now s :
  caught r = true ->
  fetchMetrics r now s = Some (setError (VStr (lit "Server not reachable")) s).
Proof.
  destruct r as [|[st [err|]]]; simpl; intros H; try reflexivity.
  - unfold fetchMetrics, fetchMetrics_try, json; simpl.
    apply andb_prop in H. destruct H as [Hok Hn]. rewrite Hok. simpl.
    destruct err; try discriminate; reflexivity.
  - unfold fetchMetrics, fetchMetrics_try, json; simpl.
    destruct (negb (ok {| status := st; body := None |})); reflexivity.
Qed.

(** The three ways a metrics poll can end with the component alive. *)
Lemma fetchMetrics_cases r now s s' :
  fetchMetrics r now s = Some s' ->
  (caught r = true /\ s' = setError (VStr (lit "Server not reachable")) s) \/
  (exists msg, truthy msg = true /\ s' = setConnected false (setError msg s)) \/
  (successful r = true /\
   exists data,
     s' = setHistory (slice (-19) (history s) ++ [sampleOf (r, now)])
            (setError VNull (setMetrics data s))).
Proof.
  intros H.
  destruct (caught r) eqn:C.
  - left. rewrite (fetchMetrics_caught r now s C) in H. injection H as <-. auto.
  - right. destruct (successful r) eqn:S.
    + right. split; [reflexivity|].
      destruct (fetchMetrics_success r now s S) as [res [data [_ [_ Hf]]]].
      rewrite Hf in H. injection H as <-. eauto.
    + left. destruct r as [|[st [err|]]]; simpl in C, S; try discriminate.
      unfold fetchMetrics, fetchMetrics_try, json in H; simpl in H.
      destruct (ok {| status := st; body := Some err |}); simpl in *.
      * apply negb_false_iff in S. destruct err; try discriminate.
      * rewrite read_get in H by exact C. simpl in H. injection H as <-.
        eexists; split; [|reflexivity].
        unfold or_else. destruct (truthy (read err (lit "detail"))) eqn:T;
          [exact T|reflexivity].
Qed.

Lemma remove_nth_length {A} i : forall l : list A,
  length (remove_nth i l) <= length l.
Proof.
  induction i as [|i IH]; intros [|x l]; simpl; auto.
  specialize (IH l). lia.
Qed.

Lemma remove_nth_Forall {A} (P : A -> Prop) i : forall l,
  Forall P l -> Forall P (remove_nth i l).
Proof.
  induction i as [|i IH]; intros [|x l] H; simpl; auto; inversion H; subst; auto.
Qed.

Lemma commit_keeps_invariant rt s' :
  polling_invariant rt ->
  (connected s' = true ->
     trim (apiKey s') <> [] /\
     (connected (app rt) = true -> apiKey s' = apiKey (app rt))) ->
  polling_invariant (commit rt s').
Proof.
  intros [Ht [Hf Hk]] Hs.
  destruct (connected (app rt)) eqn:C; destruct (connected s') eqn:C'.
  - rewrite commit_unchanged by congruence.
    destruct (Hs eq_refl) as [Hn He]. specialize (He eq_refl).
    destruct (Ht eq_refl) as [Hi _].
    unfold polling_invariant; simpl. rewrite C'.
    repeat split; try discriminate; try assumption. congruence.
  - rewrite commit_disconnect by assumption.
    unfold polling_invariant; simpl. rewrite C'.
    repeat split; try discriminate; assumption.
  - rewrite commit_connect by assumption.
    destruct (Hs eq_refl) as [Hn _].
    unfold polling_invariant; simpl. rewrite C'.
    repeat split; try discriminate; try assumption.
    apply Forall_app. split; [exact Hk|]. constructor; [exact Hn|constructor].
  - rewrite commit_unchanged by congruence.
    unfold polling_invariant; simpl. rewrite C'.
    repeat split; try discriminate; try assumption; auto.
Qed.

Lemma reachable_invariant rt : reachable rt -> polling_invariant rt.
Proof.
  induction 1 as [|rt e rt' Hr IH Hs].
  - unfold polling_invariant; simpl. repeat split; try discriminate. constructor.
  - destruct e; simpl in Hs.
    + destruct (render (app rt)) eqn:R; inversion Hs; subst; clear Hs.
      apply commit_keeps_invariant; [exact IH|]. simpl. intros C.
      unfold render in R. rewrite C in R. simpl in R.
      destruct (negb (truthy (metrics (app rt)))); discriminate.
    + destruct (render (app rt)) eqn:R; inversion Hs; subst; clear Hs.
      assert (C : connected (app rt) = false).
      { unfold render in R. destruct (connected (app rt)); [|reflexivity].
        simpl in R. destruct (negb (truthy (metrics (app rt)))); discriminate. }
      apply commit_keeps_invariant; [exact IH|].
      unfold connectClick. destruct (trim (apiKey (app rt))) eqn:T; simpl.
      * intros C'. congruence.
      * intros _. split; [rewrite T; discriminate|congruence].
    + destruct (render (app rt)); inversion Hs; subst; clear Hs.
      apply commit_keeps_invariant; [exact IH|]. simpl. discriminate.
    + destruct (render (app rt)); inversion Hs; subst; clear Hs.
      apply commit_keeps_invariant; [exact IH|]. simpl. intros C.
      split; [|reflexivity]. apply IH. exact C.
    + destruct (interval rt) as [key|] eqn:E; inversion Hs; subst; clear Hs.
      destruct IH as [Ht [Hf Hk]].
      destruct (connected (app rt)) eqn:C;
        [|rewrite (Hf eq_refl) in E; discriminate].
      destruct (Ht eq_refl) as [Hi Hn].
      assert (key = apiKey (app rt)) by congruence. subst key.
      unfold polling_invariant; simpl. rewrite C.
      repeat split; try discriminate; auto.
      apply Forall_app. split; [exact Hk|]. constructor; [exact Hn|constructor].
    + destruct (nth_error (metricsInFlight rt) i); [|discriminate].
      destruct (fetchMetrics r now (app rt)) as [s'|] eqn:F;
        inversion Hs; subst; clear Hs.
      apply commit_keeps_invariant.
      * destruct IH as [Ht [Hf Hk]]. unfold polling_invariant; simpl.
        repeat split; auto; try (apply Ht; assumption).
        apply remove_nth_Forall. exact Hk.
      * simpl.
        destruct (fetchMetrics_cases _ _ _ _ F)
          as [[_ ->] | [[msg [_ ->]] | [_ [data ->]]]]; simpl;
          try discriminate; intros C; (split; [apply IH; exact C|reflexivity]).
    + destruct (healthInFlight rt); inversion Hs; subst; clear Hs.
      apply commit_keeps_invariant.
      * exact IH.
      * assert (F : exists h, fetchHealth r (app rt) = setHealth h (app rt)).
        { destruct r as [|[st [data|]]]; unfold fetchHealth, json; simpl; eauto. }
        destruct F as [h ->]. simpl. intros C.
        split; [apply IH; exact C|reflexivity].
Qed.

Lemma slice_last19_length {A} (l : list A) : length (slice (-19) l) <= 19.
Proof.
  rewrite slice_last19, length_skipn. lia.
Qed.

Lemma fetchHealth_sets r s : exists h, fetchHealth r s = setHealth h s.
Proof.
  destruct r as [|[st [data|]]]; unfold fetchHealth, json; simpl; eauto.
Qed.

Lemma history_bounded rt : reachable rt -> length (history (app rt)) <= 20.
Proof.
  induction 1 as [|rt e rt' Hr IH Hs]; [simpl; lia|].
  destruct e; simpl in Hs.
  - destruct (render (app rt)); inversion Hs; subst; clear Hs.
    rewrite app_commit. exact IH.
  - destruct (render (app rt)); inversion Hs; subst; clear Hs.
    rewrite app_commit. unfold connectClick.
    destruct (trim (apiKey (app rt))); simpl; [exact IH|lia].
  - destruct (render (app rt)); inversion Hs; subst; clear Hs.
    rewrite app_commit. exact IH.
  - destruct (render (app rt)); inversion Hs; subst; clear Hs.
    rewrite app_commit. exact IH.
  - destruct (interval rt); inversion Hs; subst; clear Hs. exact IH.
  - destruct (nth_error (metricsInFlight rt) i); [|discriminate].
    destruct (fetchMetrics r now (app rt)) as [s'|] eqn:F;
      inversion Hs; subst; clear Hs.
    rewrite app_commit.
    destruct (fetchMetrics_cases _ _ _ _ F)
      as [[_ ->] | [[msg [_ ->]] | [_ [data ->]]]]; simpl; try exact IH.
    rewrite length_app. simpl.
    pose proof (slice_last19_length (history (app rt))). lia.
  - destruct (healthInFlight rt); inversion Hs; subst; clear Hs.
    rewrite app_commit. destruct (fetchHealth_sets r (app rt)) as [h ->]. exact IH.
Qed.

Lemma render_loading s :
  render s = LoadingView <-> connected s = true /\ truthy (metrics s) = false.
Proof.
  unfold render. destruct (connected s); simpl.
  - destruct (truthy (metrics s)); simpl; split; try discriminate; auto.
    intros [_ H]; discriminate.
  - split; [discriminate|]. intros [H _]; discriminate.
Qed.

Lemma render_dashboard s d :
  render s = DashboardView d -> connected s = true /\ truthy (metrics s) = true.
Proof.
  unfold render. destruct (connected s); simpl; [|discriminate].
  destruct (truthy (metrics s)); simpl; [auto|discriminate].
Qed.

(** ** The chart window *)

(** X1: in every reachable state the history holds at most twenty
    samples, and on the dashboard the label row and the two data rows
    of the chart have the length of the history. *)
Theorem chart_never_exceeds_twenty : forall rt,
  reachable rt ->
  length (history (app rt)) <= 20 /\
  forall d, render (app rt) = DashboardView d ->
    length (labels d) = length (history (app rt)) /\
    length (requestsSeries d) = length (labels d) /\
    length (rateLimitedSeries d) = length (labels d).
Proof.
  intros rt Hr. split; [exact (history_bounded rt Hr)|].
  intros d Hd. unfold render in Hd.
  destruct (negb (connected (app rt))); [discriminate|].
  destruct (negb (truthy (metrics (app rt)))); [discriminate|].
  injection Hd as <-. simpl. rewrite !length_map. auto.
Qed.

Lemma chart_never_exceeds_twenty_witness :
  length (history (app (Scenario.after Scenario.firstPoll))) <= 20 /\
  exists d, render (app (Scenario.after Scenario.firstPoll)) = DashboardView d /\
            length (requestsSeries d) = length (labels d).
Proof.
  destruct (chart_never_exceeds_twenty (Scenario.after Scenario.firstPoll)
              (run_reachable Scenario.firstPoll start _ reach_start eq_refl))
    as [Hb Hd].
  split; [exact Hb|].
  eexists. split; [reflexivity|]. apply (Hd _ eq_refl).
Defined.

(** ** Timer, key and connection *)

(** X2: in every reachable state the interval is registered exactly
    while connected; the key captured by its callback is then the
    current [apiKey], and that key is not blank. *)
Theorem timer_follows_connection : forall rt,
  reachable rt ->
  (connected (app rt) = true ->
     interval rt = Some (apiKey (app rt)) /\ trim (apiKey (app rt)) <> []) /\
  (connected (app rt) = false -> interval rt = None).
Proof.
  intros rt Hr. destruct (reachable_invariant rt Hr) as [Ht [Hf _]]. auto.
Qed.

Lemma timer_follows_connection_witness :
  interval (Scenario.after (Scenario.firstPoll ++ [Tick])) = Some (lit "abc") /\
  interval (Scenario.after (Scenario.firstPoll ++ [ClickLogout])) = None.
Proof.
  split.
  - apply (timer_follows_connection (Scenario.after (Scenario.firstPoll ++ [Tick]))
             (run_reachable (Scenario.firstPoll ++ [Tick]) start _ reach_start eq_refl)).
    reflexivity.
  - apply (timer_follows_connection (Scenario.after (Scenario.firstPoll ++ [ClickLogout]))
             (run_reachable (Scenario.firstPoll ++ [ClickLogout]) start _
                reach_start eq_refl)).
    reflexivity.
Defined.

(** X3: in every reachable state, every [/metrics] request in flight
    carries a key that is not blank: neither Connect nor a tick ever
    sends a blank [x-api-key]. *)
Theorem no_blank_key_is_sent : forall rt,
  reachable rt ->
  Forall (fun key => trim key <> []) (metricsInFlight rt).
Proof.
  intros rt Hr. destruct (reachable_invariant rt Hr) as [_ [_ Hk]]. exact Hk.
Qed.

Lemma no_blank_key_is_sent_witness :
  Forall (fun key => trim key <> [])
         (metricsInFlight (Scenario.after (Scenario.firstPoll ++ [Tick; Tick]))).
Proof.
  exact (no_blank_key_is_sent (Scenario.after (Scenario.firstPoll ++ [Tick; Tick]))
           (run_reachable (Scenario.firstPoll ++ [Tick; Tick]) start _
              reach_start eq_refl)).
Defined.

(** X4: while disconnected, Connect is the only event that connects or
    sends a request: after any other event the component is still
    disconnected without a timer, and no more requests are in flight
    than before. *)
Theorem only_connect_starts_polling : forall rt e rt',
  reachable rt -> connected (app rt) = false ->
  step rt e = Some rt' ->
  e = ClickConnect \/
  (connected (app rt') = false /\ interval rt' = None /\
   length (metricsInFlight rt') <= length (metricsInFlight rt) /\
   healthInFlight rt' <= healthInFlight rt).
Proof.
  intros rt e rt' Hr Hc Hs.
  destruct e; [right|left; reflexivity|right|right|right|right|right];
    assert (Hr' : reachable rt') by (eapply reach_step; eassumption);
    simpl in Hs.
  - rewrite (render_login _ Hc) in Hs. injection Hs as <-.
    rewrite commit_unchanged in * by (simpl; congruence).
    simpl. repeat split; auto. exact (disconnected_no_timer _ Hr Hc).
  - rewrite (render_login _ Hc) in Hs. discriminate.
  - rewrite (render_login _ Hc) in Hs. discriminate.
  - rewrite (disconnected_no_timer _ Hr Hc) in Hs. discriminate.
  - destruct (nth_error (metricsInFlight rt) i); [|discriminate].
    destruct (fetchMetrics r now (app rt)) as [s'|] eqn:F; [|discriminate].
    injection Hs as <-.
    assert (C' : connected s' = false).
    { destruct (fetchMetrics_cases _ _ _ _ F)
        as [[_ ->] | [[msg [_ ->]] | [_ [data ->]]]]; simpl; auto. }
    rewrite commit_unchanged in * by (simpl; congruence).
    simpl. repeat split; auto.
    + exact (disconnected_no_timer _ Hr Hc).
    + apply remove_nth_length.
  - destruct (healthInFlight rt) as [|n] eqn:E; [discriminate|].
    injection Hs as <-.
    destruct (fetchHealth_sets r (app rt)) as [h Hh].
    rewrite commit_unchanged in * by (rewrite Hh; simpl; congruence).
    simpl. rewrite Hh. simpl.
    split; [exact Hc|]. split; [exact (disconnected_no_timer _ Hr Hc)|].
    split; [reflexivity|]. rewrite E. simpl. lia.
Qed.

Lemma only_connect_starts_polling_witness :
  Change (lit "abc") = ClickConnect \/
  (connected (app (Scenario.after [Change (lit "abc")])) = false /\
   interval (Scenario.after [Change (lit "abc")]) = None /\
   length (metricsInFlight (Scenario.after [Change (lit "abc")])) <= 0 /\
   healthInFlight (Scenario.after [Change (lit "abc")]) <= 0).
Proof.
  exact (only_connect_starts_polling start (Change (lit "abc"))
           (Scenario.after [Change (lit "abc")]) reach_start eq_refl eq_refl).
Defined.

(** ** A server that cannot be reached *)

Lemma loading_step rt e rt1 :
  render (app rt) = LoadingView ->
  unreachableServer e = true ->
  step rt e = Some rt1 ->
  render (app rt1) = LoadingView /\
  interval rt1 = interval rt /\
  error (app rt1) =
    (if isMetricsSettled e then VStr (lit "Server not reachable") else error (app rt)).
Proof.
  intros Hl Hq Hs. pose proof Hl as Hl'. apply render_loading in Hl'.
  destruct Hl' as [Hc Hm].
  destruct e; simpl in Hq; try discriminate; simpl in Hs.
  - destruct (interval rt) eqn:E; [|discriminate]. injection Hs as <-.
    simpl. split; [exact Hl|split; [exact E|reflexivity]].
  - destruct (nth_error (metricsInFlight rt) i); [|discriminate].
    rewrite (fetchMetrics_caught r now (app rt) Hq) in Hs. injection Hs as <-.
    rewrite commit_unchanged by reflexivity. simpl.
    repeat split. apply render_loading. simpl. auto.
  - destruct (healthInFlight rt); [discriminate|]. injection Hs as <-.
    destruct (fetchHealth_sets r (app rt)) as [h Hh]. rewrite Hh.
    rewrite commit_unchanged by reflexivity. simpl.
    repeat split. apply render_loading. simpl. auto.
Qed.

(** X5: from the Loading view, as long as every metrics poll ends in
    the [catch] (server down, unreadable body), the view stays
    Loading whatever ticks and responses follow: the message "Server
    not reachable" is stored but not on screen, the timer keeps
    running, and none of the controls (key input, Connect, Logout)
    exists to leave the view. *)
Theorem loading_persists_while_unreachable : forall es rt rt',
  render (app rt) = LoadingView ->
  forallb unreachableServer es = true ->
  run rt es = Some rt' ->
  render (app rt') = LoadingView /\
  interval rt' = interval rt /\
  error (app rt') =
    (if existsb isMetricsSettled es
     then VStr (lit "Server not reachable") else error (app rt)) /\
  (forall v, step rt' (Change v) = None) /\
  step rt' ClickConnect = None /\
  step rt' ClickLogout = None.
Proof.
  induction es as [|e es IH]; intros rt rt' Hl Hq Hrun; simpl in *.
  - injection Hrun as <-. rewrite Hl. repeat split.
  - apply andb_prop in Hq. destruct Hq as [Hq Hqs].
    destruct (step rt e) as [rt1|] eqn:Hs; [|discriminate].
    destruct (loading_step rt e rt1 Hl Hq Hs) as [Hl1 [Hi1 He1]].
    destruct (IH rt1 rt' Hl1 Hqs Hrun) as [Hl' [Hi' [He' Hctl]]].
    split; [exact Hl'|]. split; [congruence|]. split; [|exact Hctl].
    rewrite He', He1.
    destruct (isMetricsSettled e), (existsb isMetricsSettled es); reflexivity.
Qed.

Lemma loading_persists_while_unreachable_witness :
  render (app (Scenario.after ([Change (lit "abc"); ClickConnect] ++ Scenario.serverDown)))
    = LoadingView /\
  error (app (Scenario.after ([Change (lit "abc"); ClickConnect] ++ Scenario.serverDown)))
    = VStr (lit "Server not reachable").
Proof.
  destruct (loading_persists_while_unreachable Scenario.serverDown
              (Scenario.after [Change (lit "abc"); ClickConnect])
              (Scenario.after ([Change (lit "abc"); ClickConnect] ++ Scenario.serverDown))
              eq_refl eq_refl eq_refl)
    as [Hl [_ [He _]]].
  split; [exact Hl | exact He].
Defined.

(** X6: a transport failure during a session leaves the dashboard as
    it is -- the message is stored but not shown -- and Logout then
    brings up the Login view with "Server not reachable" and an empty
    key field. *)
Theorem transport_failure_surfaces_at_logout : forall rt d i r now,
  render (app rt) = DashboardView d ->
  i < length (metricsInFlight rt) ->
  caught r = true ->
  exists rt1 rt2,
    step rt (MetricsSettled i r now) = Some rt1 /\
    render (app rt1) = DashboardView d /\
    step rt1 ClickLogout = Some rt2 /\
    render (app rt2) =
      LoginView (Some (VStr (lit "Server not reachable"))) (lit "").
Proof.
  intros rt d i r now Hd Hi Hc.
  destruct (render_dashboard _ _ Hd) as [Hcon Hm].
  rewrite (step_metrics _ _ _ _ _ Hi (fetchMetrics_caught r now (app rt) Hc)).
  rewrite commit_unchanged by reflexivity.
  assert (Hd1 : render (setError (VStr (lit "Server not reachable")) (app rt))
                = DashboardView d).
  { unfold render in *. simpl. rewrite Hcon, Hm in *. exact Hd. }
  eexists; eexists. split; [reflexivity|]. split; [exact Hd1|].
  simpl step. simpl app. rewrite Hd1. split; [reflexivity|].
  rewrite app_commit. reflexivity.
Qed.

Lemma transport_failure_surfaces_at_logout_witness :
  exists rt1 rt2,
    step (Scenario.after (Scenario.firstPoll ++ [Tick]))
         (MetricsSettled 0 Rejected (lit "10:00:02")) = Some rt1 /\
    step rt1 ClickLogout = Some rt2 /\
    render (app rt2) =
      LoginView (Some (VStr (lit "Server not reachable"))) (lit "").
Proof.
  destruct (transport_failure_surfaces_at_logout
              (Scenario.after (Scenario.firstPoll ++ [Tick]))
              _ 0 Rejected (lit "10:00:02") eq_refl (le_n 1) eq_refl)
    as [rt1 [rt2 [H1 [_ [H2 H3]]]]].
  exists rt1, rt2. auto.
Defined.

(** ** Which keys Connect accepts *)

Lemma existsb_negb_forallb {A} (f : A -> bool) l :
  existsb (fun x => negb (f x)) l = negb (forallb f l).
Proof.
  induction l as [|x l IH]; simpl; [reflexivity|].
  rewrite IH. destruct (f x), (forallb f l); reflexivity.
Qed.

(** X8: on the Login view, Connect connects exactly when the key has
    at least one code unit that is not white space; otherwise it stays
    disconnected, stores "Please enter API key", and leaves history and
    snapshot alone.  In both cases the key is kept as typed, untrimmed. *)
Theorem connect_needs_a_visible_character : forall s,
  connected s = false ->
  (connected (connectClick s) = true <->
   existsb (fun c => negb (is_whitespace c)) (apiKey s) = true) /\
  (connected (connectClick s) = false ->
   error (connectClick s) = VStr (lit "Please enter API key") /\
   history (connectClick s) = history s /\
   metrics (connectClick s) = metrics s) /\
  apiKey (connectClick s) = apiKey s.
Proof.
  intros s Hc. rewrite existsb_negb_forallb.
  pose proof (trim_nil (apiKey s)) as T. unfold connectClick.
  destruct (trim (apiKey s)) as [|c t]; simpl.
  - assert (W : forallb is_whitespace (apiKey s) = true) by (apply T; reflexivity).
    rewrite W, Hc. simpl. repeat split; discriminate.
  - assert (W : forallb is_whitespace (apiKey s) = false).
    { destruct (forallb is_whitespace (apiKey s)); [|reflexivity].
      destruct T as [_ T]. specialize (T eq_refl). discriminate. }
    rewrite W. simpl. repeat split; discriminate.
Qed.

Lemma connect_needs_a_visible_character_witness :
  connected (connectClick (setApiKey (lit " k ") initial)) = true /\
  apiKey (connectClick (setApiKey (lit " k ") initial)) = lit " k ".
Proof.
  destruct (connect_needs_a_visible_character (setApiKey (lit " k ") initial) eq_refl)
    as [[_ H] [_ K]].
  split; [apply H; reflexivity | exact K].
Defined.

(** ** Health responses *)

(** X9: a health response changes the health cell and nothing else:
    timer and metrics requests are as before, one health request has
    left the flight list, and the view is the same view -- on the
    dashboard up to the health indicator. *)
Theorem health_response_only_moves_indicator : forall rt r rt',
  step rt (HealthSettled r) = Some rt' ->
  (exists h, app rt' = setHealth h (app rt)) /\
  interval rt' = interval rt /\
  metricsInFlight rt' = metricsInFlight rt /\
  S (healthInFlight rt') = healthInFlight rt /\
  match render (app rt) with
  | LoginView m k => render (app rt') = LoginView m k
  | LoadingView => render (app rt') = LoadingView
  | DashboardView d =>
      render (app rt') =
        DashboardView
          {| dark := dark d;
             totalRequests := totalRequests d;
             rateLimitedRequests := rateLimitedRequests d;
             averageLatency := averageLatency d;
             p95Latency := p95Latency d;
             labels := labels d;
             requestsSeries := requestsSeries d;
             rateLimitedSeries := rateLimitedSeries d;
             healthy := healthIndicator (health (app rt')) |}
  end.
Proof.
  intros rt r rt' Hs. simpl in Hs.
  destruct (healthInFlight rt) as [|n] eqn:E; [discriminate|]. injection Hs as <-.
  destruct (fetchHealth_sets r (app rt)) as [h Hh]. rewrite Hh.
  rewrite commit_unchanged by reflexivity. simpl. rewrite E. simpl.
  split; [eauto|]. repeat split.
  unfold render; simpl.
  destruct (connected (app rt)); simpl; [|reflexivity].
  destruct (truthy (metrics (app rt))); reflexivity.
Qed.

Lemma health_response_only_moves_indicator_witness :
  exists rt',
    step (Scenario.after (Scenario.firstPoll ++ [Tick])) (HealthSettled Rejected)
      = Some rt' /\
    interval rt' = Some (lit "abc") /\
    health (app rt') = down.
Proof.
  eexists. split; [reflexivity|].
  destruct (health_response_only_moves_indicator
              (Scenario.after (Scenario.firstPoll ++ [Tick])) Rejected _ eq_refl)
    as [_ [Hi _]].
  split; [exact Hi | reflexivity].
Defined.

(** ** The theme button *)

(** X11: on the dashboard the theme button flips the dark flag and
    nothing else -- no request, no timer change, the same figures --
    and a second click restores the state exactly. *)
Theorem theme_toggle_is_an_involution : forall rt d,
  render (app rt) = DashboardView d ->
  exists rt1,
    step rt ClickTheme = Some rt1 /\
    render (app rt1) =
      DashboardView
        {| dark := negb (dark d);
           totalRequests := totalRequests d;
           rateLimitedRequests := rateLimitedRequests d;
           averageLatency := averageLatency d;
           p95Latency := p95Latency d;
           labels := labels d;
           requestsSeries := requestsSeries d;
           rateLimitedSeries := rateLimitedSeries d;
           healthy := healthy d |} /\
    interval rt1 = interval rt /\
    metricsInFlight rt1 = metricsInFlight rt /\
    healthInFlight rt1 = healthInFlight rt /\
    step rt1 ClickTheme = Some rt.
Proof.
  intros rt d Hd. destruct (render_dashboard _ _ Hd) as [Hc Hm].
  assert (Hd1 : render (toggleDarkMode (app rt)) =
                DashboardView
                  {| dark := negb (dark d);
                     totalRequests := totalRequests d;
                     rateLimitedRequests := rateLimitedRequests d;
                     averageLatency := averageLatency d;
                     p95Latency := p95Latency d;
                     labels := labels d;
                     requestsSeries := requestsSeries d;
                     rateLimitedSeries := rateLimitedSeries d;
                     healthy := healthy d |}).
  { unfold render in *. simpl. rewrite Hc, Hm in *. simpl in *.
    injection Hd as <-. reflexivity. }
  simpl step at 1. rewrite Hd. rewrite commit_unchanged by reflexivity.
  eexists. split; [reflexivity|]. simpl app. split; [exact Hd1|].
  simpl. repeat split.
  rewrite Hd1. rewrite commit_unchanged by reflexivity. simpl.
  destruct rt as [[k c dm m h hl e] iv mf hf]; simpl.
  destruct dm; reflexivity.
Qed.

Lemma theme_toggle_is_an_involution_witness :
  exists rt1,
    step (Scenario.after Scenario.firstPoll) ClickTheme = Some rt1 /\
    darkMode (app rt1) = false /\
    step rt1 ClickTheme = Some (Scenario.after Scenario.firstPoll).
Proof.
  destruct (theme_toggle_is_an_involution (Scenario.after Scenario.firstPoll) _ eq_refl)
    as [rt1 [Hs [Hr [_ [_ [_ Hb]]]]]].
  exists rt1. split; [exact Hs|]. split; [|exact Hb].
  injection Hs as <-. reflexivity.
Defined.

(** ** Who writes which cell *)

(** X12: each state cell has a fixed set of writers.  The key changes
    only by typing and by Logout; the connection state only by
    Connect, Logout and a metrics response; the theme only by the
    theme button; snapshot, history and error only by Connect and a
    metrics response; health only by a health response.  A tick
    writes nothing. *)
Theorem cells_have_fixed_writers : forall rt e rt',
  step rt e = Some rt' ->
  match e with
  | Change _ | ClickLogout => True
  | _ => apiKey (app rt') = apiKey (app rt)
  end /\
  match e with
  | ClickConnect | ClickLogout | MetricsSettled _ _ _ => True
  | _ => connected (app rt') = connected (app rt)
  end /\
  match e with
  | ClickTheme => True
  | _ => darkMode (app rt') = darkMode (app rt)
  end /\
  match e with
  | ClickConnect | MetricsSettled _ _ _ => True
  | _ => metrics (app rt') = metrics (app rt) /\
         history (app rt') = history (app rt) /\
         error (app rt') = error (app rt)
  end /\
  match e with
  | HealthSettled _ => True
  | _ => health (app rt') = health (app rt)
  end.
Proof.
  intros rt e rt' Hs. destruct e; simpl in Hs.
  - destruct (render (app rt)); inversion Hs; subst; clear Hs.
    rewrite app_commit. simpl. tauto.
  - destruct (render (app rt)); inversion Hs; subst; clear Hs.
    rewrite app_commit. unfold connectClick.
    destruct (trim (apiKey (app rt))); simpl; tauto.
  - destruct (render (app rt)); inversion Hs; subst; clear Hs.
    rewrite app_commit. simpl. tauto.
  - destruct (render (app rt)); inversion Hs; subst; clear Hs.
    rewrite app_commit. simpl. tauto.
  - destruct (interval rt); inversion Hs; subst; clear Hs. simpl. tauto.
  - destruct (nth_error (metricsInFlight rt) i); [|discriminate].
    destruct (fetchMetrics r now (app rt)) as [s'|] eqn:F;
      inversion Hs; subst; clear Hs.
    rewrite app_commit.
    destruct (fetchMetrics_cases _ _ _ _ F)
      as [[_ ->] | [[msg [_ ->]] | [_ [data ->]]]]; simpl; tauto.
  - destruct (healthInFlight rt); inversion Hs; subst; clear Hs.
    rewrite app_commit. destruct (fetchHealth_sets r (app rt)) as [h ->].
    simpl. tauto.
Qed.

Lemma cells_have_fixed_writers_witness :
  darkMode (app (Scenario.after (Scenario.firstPoll ++ [ClickLogout]))) =
  darkMode (app (Scenario.after Scenario.firstPoll)) /\
  health (app (Scenario.after (Scenario.firstPoll ++ [ClickLogout]))) =
  health (app (Scenario.after Scenario.firstPoll)).
Proof.
  destruct (cells_have_fixed_writers (Scenario.after Scenario.firstPoll) ClickLogout
              (Scenario.after (Scenario.firstPoll ++ [ClickLogout])) eq_refl)
    as [_ [_ [Hd [_ Hh]]]].
  split; [exact Hd | exact Hh].
Defined.

(** * The component on screen *)

(** ** Auxiliary facts *)

Lemma falsy_renderable v : truthy v = false -> renderable v = true.
Proof.
  destruct v; simpl; intros H; try reflexivity; discriminate.
Qed.

Lemma mounts_login s : connected s = false -> mounts s = renderable (error s).
Proof.
  intros H. unfold mounts. rewrite (render_login _ H). simpl.
  destruct (truthy (error s)) eqn:T; [reflexivity|].
  symmetry. apply falsy_renderable. exact T.
Qed.

Lemma mounts_loading s : render s = LoadingView -> mounts s = true.
Proof.
  intros H. unfold mounts. rewrite H. reflexivity.
Qed.

(** While connected, the tree does not depend on the error and the
    health only moves the indicator. *)
Lemma mounts_setError s m : connected s = true -> mounts (setError m s) = mounts s.
Proof.
  intros H. unfold mounts, render. simpl. rewrite H. reflexivity.
Qed.

Lemma mounts_setHealth s h : mounts (setHealth h s) = mounts s.
Proof.
  unfold mounts, render. simpl.
  destruct (connected s); simpl; [|reflexivity].
  destruct (truthy (metrics s)); reflexivity.
Qed.

Lemma live_step_some rt e rt' :
  live_step rt e = Some rt' <->
  mounts (app rt) = true /\ step rt e = Some rt' /\ mounts (app rt') = true.
Proof.
  unfold live_step. destruct (mounts (app rt)).
  - destruct (step rt e) as [rt1|].
    + destruct (mounts (app rt1)) eqn:M; split.
      * intros H; injection H as <-. auto.
      * intros [_ [H _]]. exact H.
      * discriminate.
      * intros [_ [H M']]. injection H as <-. congruence.
    + split; [discriminate|]. intros [_ [H _]]; discriminate.
  - split; [discriminate|]. intros [H _]; discriminate.
Qed.

Lemma live_step_intro rt e rt' :
  mounts (app rt) = true -> step rt e = Some rt' -> mounts (app rt') = true ->
  live_step rt e = Some rt'.
Proof.
  intros. apply live_step_some. auto.
Qed.

Lemma live_step_unmounts rt e rt' :
  step rt e = Some rt' -> mounts (app rt') = false -> live_step rt e = None.
Proof.
  intros H M. unfold live_step. rewrite H, M.
  destruct (mounts (app rt)); reflexivity.
Qed.

Lemma live_reachable rt : live rt -> reachable rt.
Proof.
  induction 1 as [|rt e rt' _ IH H]; [constructor|].
  apply live_step_some in H. destruct H as [_ [H _]].
  eapply reach_step; eassumption.
Qed.

Lemma live_mounts rt : live rt -> mounts (app rt) = true.
Proof.
  destruct 1 as [|rt e rt' _ H]; [reflexivity|].
  apply live_step_some in H. tauto.
Qed.

Lemma live_run_live es : forall rt rt',
  live rt -> live_run rt es = Some rt' -> live rt'.
Proof.
  induction es as [|e es IH]; simpl; intros rt rt' Hl H.
  - now inversion H; subst.
  - destruct (live_step rt e) as [rt1|] eqn:E; [|discriminate].
    eapply IH; [eapply live_next; eassumption | exact H].
Qed.

(** On screen, the stored error is always something React can show. *)
Lemma live_error_renderable rt : live rt -> renderable (error (app rt)) = true.
Proof.
  induction 1 as [|rt e rt' Hl IH H]; [reflexivity|].
  apply live_step_some in H. destruct H as [_ [Hs M]].
  destruct (connected (app rt')) eqn:C;
    [|rewrite <- (mounts_login _ C); exact M].
  destruct e; simpl in Hs.
  - destruct (render (app rt)); inversion Hs; subst; clear Hs.
    rewrite app_commit. exact IH.
  - destruct (render (app rt)); inversion Hs; subst; clear Hs.
    rewrite app_commit. unfold connectClick.
    destruct (trim (apiKey (app rt))); simpl; [reflexivity|exact IH].
  - destruct (render (app rt)); inversion Hs; subst; clear Hs.
    rewrite app_commit. exact IH.
  - destruct (render (app rt)); inversion Hs; subst; clear Hs.
    rewrite app_commit. exact IH.
  - destruct (interval rt); inversion Hs; subst; clear Hs. exact IH.
  - destruct (nth_error (metricsInFlight rt) i); [|discriminate].
    destruct (fetchMetrics r now (app rt)) as [s'|] eqn:F;
      inversion Hs; subst; clear Hs.
    rewrite app_commit in *.
    destruct (fetchMetrics_cases _ _ _ _ F)
      as [[_ ->] | [[msg [_ ->]] | [_ [data ->]]]]; simpl in *;
      try reflexivity; discriminate.
  - destruct (healthInFlight rt); inversion Hs; subst; clear Hs.
    rewrite app_commit. destruct (fetchHealth_sets r (app rt)) as [h ->]. exact IH.
Qed.

(** ** A non-ok metrics response, on screen *)

(** C1, as the code has it: during a session, a metrics response that
    is not ok never clears the snapshot or the history.  When its body
    is JSON other than [null], the failure message is the body's
    [detail] if truthy and "Invalid API key" otherwise.  If React can
    show that message, the error is set to it and the connection state
    to disconnected: the interval is cleared, no further tick fires,
    and the Login view is on screen with the message.  If it cannot
    (the [detail] is an object), React unmounts the tree.  When the
    body cannot be read ([null] or not JSON), the error is set to
    "Server not reachable" and the session stays connected with its
    timer. *)
Theorem non_ok_response_disconnects : forall rt i now res,
  mounts (app rt) = true ->
  connected (app rt) = true ->
  i < length (metricsInFlight rt) ->
  ok res = false ->
  (forall err,
     body res = Some err -> nullish err = false ->
     renderable (or_else (read err (lit "detail")) (VStr (lit "Invalid API key"))) = true ->
     exists rt',
       live_step rt (MetricsSettled i (Responded res) now) = Some rt' /\
       metrics (app rt') = metrics (app rt) /\
       history (app rt') = history (app rt) /\
       error (app rt') =
         or_else (read err (lit "detail")) (VStr (lit "Invalid API key")) /\
       connected (app rt') = false /\
       interval rt' = None /\ live_step rt' Tick = None /\
       render (app rt') = LoginView (Some (error (app rt'))) (apiKey (app rt))) /\
  (forall err,
     body res = Some err -> nullish err = false ->
     renderable (or_else (read err (lit "detail")) (VStr (lit "Invalid API key"))) = false ->
     live_step rt (MetricsSettled i (Responded res) now) = None) /\
  (body res = None \/ (exists err, body res = Some err /\ nullish err = true) ->
   exists rt',
     live_step rt (MetricsSettled i (Responded res) now) = Some rt' /\
     metrics (app rt') = metrics (app rt) /\
     history (app rt') = history (app rt) /\
     error (app rt') = VStr (lit "Server not reachable") /\
     connected (app rt') = true /\
     interval rt' = interval rt).
Proof.
  intros rt i now res Hm Hc Hi Hok.
  assert (A : forall err, body res = Some err -> nullish err = false ->
            step rt (MetricsSettled i (Responded res) now) =
              Some {| app := setConnected false
                               (setError (or_else (read err (lit "detail"))
                                                  (VStr (lit "Invalid API key")))
                                         (app rt));
                      interval := None;
                      metricsInFlight := remove_nth i (metricsInFlight rt);
                      healthInFlight := healthInFlight rt |}).
  { intros err Hb Hn.
    assert (Hf : fetchMetrics (Responded res) now (app rt) =
                 Some (setConnected false
                         (setError (or_else (read err (lit "detail"))
                                            (VStr (lit "Invalid API key"))) (app rt)))).
    { unfold fetchMetrics, fetchMetrics_try, json. rewrite Hok, Hb. simpl.
      rewrite read_get by exact Hn. reflexivity. }
    rewrite (step_metrics _ _ _ _ _ Hi Hf).
    rewrite commit_disconnect by (exact Hc || reflexivity). reflexivity. }
  assert (T : forall err,
            truthy (or_else (read err (lit "detail")) (VStr (lit "Invalid API key")))
            = true).
  { intros err. unfold or_else.
    destruct (truthy (read err (lit "detail"))) eqn:T; [exact T|reflexivity]. }
  split; [|split].
  - intros err Hb Hn Hr. eexists. split.
    + apply live_step_intro; [exact Hm | exact (A err Hb Hn) |].
      simpl. rewrite mounts_login by reflexivity. exact Hr.
    + simpl. repeat split.
      * unfold live_step. simpl. rewrite mounts_login by reflexivity.
        simpl. rewrite Hr. reflexivity.
      * unfold render; simpl. rewrite (T err). reflexivity.
  - intros err Hb Hn Hr.
    apply (live_step_unmounts _ _ _ (A err Hb Hn)).
    simpl. rewrite mounts_login by reflexivity. exact Hr.
  - intros Hb.
    assert (C : caught (Responded res) = true).
    { simpl. destruct Hb as [-> | [err [-> Hn]]]; [reflexivity|].
      rewrite Hok, Hn. reflexivity. }
    pose proof (step_metrics _ _ _ _ _ Hi (fetchMetrics_caught _ now (app rt) C)) as Hs.
    rewrite commit_unchanged in Hs by reflexivity.
    eexists. split.
    + apply live_step_intro; [exact Hm | exact Hs |].
      simpl. rewrite mounts_setError by exact Hc. exact Hm.
    + simpl. repeat split. exact Hc.
Qed.

Lemma non_ok_response_disconnects_witness :
  exists rt',
    live_step (Scenario.after (Scenario.firstPoll ++ [Tick]))
              (MetricsSettled 0 Scenario.badKey (lit "10:00:02")) = Some rt' /\
    error (app rt') = VStr (lit "bad key") /\
    connected (app rt') = false /\
    interval rt' = None /\
    metrics (app rt') = Scenario.snapshot 10.
Proof.
  destruct (non_ok_response_disconnects
              (Scenario.after (Scenario.firstPoll ++ [Tick])) 0 (lit "10:00:02")
              {| status := 401;
                 body := Some (VObj [ (lit "detail", VStr (lit "bad key")) ]) |}
              eq_refl eq_refl (le_n 1) eq_refl)
    as [H _].
  destruct (H (VObj [ (lit "detail", VStr (lit "bad key")) ]) eq_refl eq_refl eq_refl)
    as [rt' [Hs [Hm [_ [He [Hc [Hi _]]]]]]].
  exists rt'. split; [exact Hs|].
  split; [exact He|]. split; [exact Hc|]. split; [exact Hi|]. exact Hm.
Defined.

(** ** Responses that arrive after the disconnect, on screen *)

(** C3, as the code has it: once disconnected, no interval is
    registered and no tick fires; a response to a request that is
    still in flight is processed as during a session.  A successful one
    stores the snapshot, clears the error and appends a sample to the
    history.  A failed one leaves the history alone and sets the error
    to its message, which the Login view on screen then shows; if the
    message is an object React cannot show, the tree is unmounted. *)
Theorem late_response_is_processed : forall rt,
  live rt -> connected (app rt) = false ->
  interval rt = None /\ live_step rt Tick = None /\
  (forall i r now,
     i < length (metricsInFlight rt) -> successful r = true ->
     exists rt' res,
       live_step rt (MetricsSettled i r now) = Some rt' /\
       connected (app rt') = false /\ interval rt' = None /\
       r = Responded res /\ body res = Some (metrics (app rt')) /\
       error (app rt') = VNull /\
       history (app rt') = slice (-19) (history (app rt)) ++ [sampleOf (r, now)]) /\
  (forall i r now,
     i < length (metricsInFlight rt) -> failed r = true ->
     exists s',
       fetchMetrics r now (app rt) = Some s' /\
       connected s' = false /\
       truthy (error s') = true /\
       history s' = history (app rt) /\
       metrics s' = metrics (app rt) /\
       live_step rt (MetricsSettled i r now) =
         (if renderable (error s')
          then Some {| app := s'; interval := None;
                       metricsInFlight := remove_nth i (metricsInFlight rt);
                       healthInFlight := healthInFlight rt |}
          else None)).
Proof.
  intros rt Hl Hc.
  pose proof (live_mounts rt Hl) as Hm.
  pose proof (disconnected_no_timer rt (live_reachable rt Hl) Hc) as Hi.
  split; [exact Hi|]. split.
  { unfold live_step. simpl. rewrite Hi. destruct (mounts (app rt)); reflexivity. }
  split.
  - intros i r now Hlt Hs.
    destruct (fetchMetrics_success r now (app rt) Hs) as [res [data [Er [Eb Ef]]]].
    pose proof (step_metrics _ _ _ _ _ Hlt Ef) as Hstep.
    rewrite commit_unchanged in Hstep by (simpl; congruence).
    eexists; exists res. split.
    + apply live_step_intro; [exact Hm | exact Hstep |].
      simpl. rewrite mounts_login by exact Hc. reflexivity.
    + simpl. repeat split; assumption.
  - intros i r now Hlt Hs.
    assert (H : exists s', fetchMetrics r now (app rt) = Some s' /\
                  connected s' = false /\ truthy (error s') = true /\
                  history s' = history (app rt) /\ metrics s' = metrics (app rt)).
    { destruct (fetchMetrics_failure r now (app rt) Hs) as [msg [T [Ef|Ef]]];
        eexists; (split; [exact Ef|]); simpl; repeat split; assumption. }
    destruct H as [s' [Ef [Hc' [T [Hh Hme]]]]].
    exists s'. repeat split; try assumption.
    pose proof (step_metrics _ _ _ _ _ Hlt Ef) as Hstep.
    rewrite commit_unchanged in Hstep by (simpl; congruence).
    assert (Hstep' : step rt (MetricsSettled i r now) =
                     Some {| app := s'; interval := None;
                             metricsInFlight := remove_nth i (metricsInFlight rt);
                             healthInFlight := healthInFlight rt |}).
    { rewrite Hstep. unfold settleMetrics. cbn [interval metricsInFlight healthInFlight].
      rewrite Hi. reflexivity. }
    destruct (renderable (error s')) eqn:R.
    + apply live_step_intro; [exact Hm | exact Hstep' |].
      simpl. rewrite mounts_login by exact Hc'. exact R.
    + apply (live_step_unmounts _ _ _ Hstep').
      simpl. rewrite mounts_login by exact Hc'. exact R.
Qed.

Lemma late_response_is_processed_witness :
  exists rt',
    live_step (Scenario.after (Scenario.firstPoll ++ [Tick; ClickLogout]))
              (MetricsSettled 0 (Scenario.ok200 11) (lit "10:00:02")) = Some rt' /\
    metrics (app rt') = Scenario.snapshot 11 /\
    length (history (app rt')) = 2.
Proof.
  destruct (late_response_is_processed
              (Scenario.after (Scenario.firstPoll ++ [Tick; ClickLogout]))
              (live_run_live (Scenario.firstPoll ++ [Tick; ClickLogout])
                 start _ live_start eq_refl)
              eq_refl)
    as [_ [_ [H _]]].
  destruct (H 0 (Scenario.ok200 11) (lit "10:00:02") (le_n 1) eq_refl)
    as [rt' [res [Hs [_ [_ [Er [Eb [_ Hh]]]]]]]].
  exists rt'. split; [exact Hs|]. split.
  - injection Er as <-. simpl in Eb. injection Eb as <-. reflexivity.
  - rewrite Hh. reflexivity.
Defined.

(** ** The three views *)

(** C9, as the code has it: the tree [App] returns is a three-way
    function of the state.  It is the Login view exactly when
    disconnected, and then it shows the error if that is truthy; the
    Loading view exactly when connected with a falsy metrics cell --
    [null] before the first successful poll, but also a falsy body
    such as [0] that a poll has stored; the Dashboard view exactly when
    connected with a truthy metrics cell, which every snapshot object
    is.  React has that tree on screen exactly when the error shown
    by the Login view, or the four figures shown by the Dashboard view,
    are values it can show. *)
Theorem render_three_way : forall s,
  ((exists m k, render s = LoginView m k) <-> connected s = false) /\
  (connected s = false ->
     render s = LoginView (if truthy (error s) then Some (error s) else None)
                          (apiKey s)) /\
  (render s = LoadingView <-> connected s = true /\ truthy (metrics s) = false) /\
  ((exists d, render s = DashboardView d) <->
     connected s = true /\ truthy (metrics s) = true) /\
  (metrics s = VNull -> truthy (metrics s) = false) /\
  (forall props, metrics s = VObj props -> truthy (metrics s) = true) /\
  (mounts s = true <->
     (connected s = false -> renderable (error s) = true) /\
     (connected s = true -> truthy (metrics s) = true ->
        renderable (read (metrics s) (lit "total_requests")) = true /\
        renderable (read (metrics s) (lit "rate_limited_requests")) = true /\
        renderable (read (metrics s) (lit "average_latency_ms")) = true /\
        renderable (read (metrics s) (lit "p95_latency_ms")) = true)).
Proof.
  intros s.
  split; [|split; [|split; [|split; [|split; [|split]]]]].
  - unfold render. destruct (connected s); simpl.
    + destruct (truthy (metrics s)); simpl; view_cases.
    + view_cases.
  - apply render_login.
  - apply render_loading.
  - split.
    + intros [d H]. exact (render_dashboard _ _ H).
    + intros [C T]. unfold render. rewrite C, T. simpl. eauto.
  - intros ->. reflexivity.
  - intros props ->. reflexivity.
  - destruct (connected s) eqn:C.
    + unfold mounts, render. rewrite C. simpl.
      destruct (truthy (metrics s)) eqn:T; simpl.
      * rewrite !andb_true_iff. split.
        -- intros [[[H1 H2] H3] H4]. split; [discriminate|]. auto.
        -- intros [_ H]. destruct (H eq_refl eq_refl) as [H1 [H2 [H3 H4]]]. auto.
      * split; [|reflexivity]. intros _. split; discriminate.
    + rewrite (mounts_login _ C). split.
      * intros H. split; [auto|discriminate].
      * intros [H _]. auto.
Qed.

(** C9 fails as stated: a poll answered 200 with body [0] stores [0]
    as the metrics and appends a sample; the component is connected, a
    snapshot has arrived, and the view is still the Loading view. *)
Lemma falsy_body_stays_loading :
  let rt := Scenario.after
              [ Change (lit "abc"); ClickConnect;
                MetricsSettled 0 (Responded {| status := 200; body := Some (VNum 0) |})
                               (lit "10:00:00") ] in
  live rt /\
  connected (app rt) = true /\
  metrics (app rt) = VNum 0 /\ metrics (app rt) <> VNull /\
  length (history (app rt)) = 1 /\
  render (app rt) = LoadingView /\
  ~ (exists d, render (app rt) = DashboardView d).
Proof.
  split.
  - apply (live_run_live
             [ Change (lit "abc"); ClickConnect;
               MetricsSettled 0 (Responded {| status := 200; body := Some (VNum 0) |})
                              (lit "10:00:00") ]
             start _ live_start).
    vm_compute. reflexivity.
  - vm_compute. repeat split; try discriminate. intros [d H]. discriminate H.
Qed.

(** ** After a rejected key *)

(** X7: when a session on screen is ended by a non-ok metrics response
    whose message React can show, the key is still in the input;
    clicking Connect without typing reconnects with that same key:
    history and snapshot are reset, the timer is registered again, a
    request carrying the key leaves, the Loading view is on screen,
    and the stored error is still the rejection message. *)
Theorem rejected_key_can_be_resubmitted : forall rt i now res err,
  live rt ->
  connected (app rt) = true ->
  i < length (metricsInFlight rt) ->
  ok res = false -> body res = Some err -> nullish err = false ->
  renderable (or_else (read err (lit "detail")) (VStr (lit "Invalid API key"))) = true ->
  exists rt',
    live_run rt [MetricsSettled i (Responded res) now; ClickConnect] = Some rt' /\
    connected (app rt') = true /\
    apiKey (app rt') = apiKey (app rt) /\
    interval rt' = Some (apiKey (app rt)) /\
    metricsInFlight rt' = remove_nth i (metricsInFlight rt) ++ [apiKey (app rt)] /\
    history (app rt') = [] /\
    render (app rt') = LoadingView /\
    error (app rt') =
      or_else (read err (lit "detail")) (VStr (lit "Invalid API key")).
Proof.
  intros rt i now res err Hl Hc Hi Hok Hb Hn Hr.
  destruct (reachable_invariant rt (live_reachable rt Hl)) as [Ht _].
  destruct (Ht Hc) as [_ Hkey].
  assert (Hf : fetchMetrics (Responded res) now (app rt) =
               Some (setConnected false
                       (setError (or_else (read err (lit "detail"))
                                          (VStr (lit "Invalid API key"))) (app rt)))).
  { unfold fetchMetrics, fetchMetrics_try, json. rewrite Hok, Hb. simpl.
    rewrite read_get by exact Hn. reflexivity. }
  pose proof (step_metrics _ _ _ _ _ Hi Hf) as H1.
  rewrite commit_disconnect in H1 by (exact Hc || reflexivity).
  match type of H1 with _ = Some ?r => set (rt1 := r) in * end.
  assert (M1 : mounts (app rt1) = true).
  { unfold rt1. simpl. rewrite mounts_login by reflexivity. exact Hr. }
  assert (H2 : step rt1 ClickConnect =
               Some {| app := setConnected true
                                (setMetrics VNull (setHistory [] (app rt1)));
                       interval := Some (apiKey (app rt));
                       metricsInFlight :=
                         remove_nth i (metricsInFlight rt) ++ [apiKey (app rt)];
                       healthInFlight := S (healthInFlight rt) |}).
  { rewrite step_connect by reflexivity. unfold connectClick.
    change (apiKey (app rt1)) with (apiKey (app rt)).
    destruct (trim (apiKey (app rt))) as [|c t]; [congruence|].
    rewrite commit_connect by reflexivity. reflexivity. }
  eexists. split.
  - unfold live_run.
    rewrite (live_step_intro _ _ _ (live_mounts rt Hl) H1 M1).
    rewrite (live_step_intro _ _ _ M1 H2 eq_refl). reflexivity.
  - simpl. repeat split.
Qed.

Lemma rejected_key_can_be_resubmitted_witness :
  exists rt',
    live_run (Scenario.after (Scenario.firstPoll ++ [Tick]))
        [MetricsSettled 0 Scenario.badKey (lit "10:00:02"); ClickConnect] = Some rt' /\
    connected (app rt') = true /\
    apiKey (app rt') = lit "abc" /\
    render (app rt') = LoadingView /\
    error (app rt') = VStr (lit "bad key").
Proof.
  destruct (rejected_key_can_be_resubmitted
              (Scenario.after (Scenario.firstPoll ++ [Tick])) 0 (lit "10:00:02")
              {| status := 401;
                 body := Some (VObj [ (lit "detail", VStr (lit "bad key")) ]) |}
              (VObj [ (lit "detail", VStr (lit "bad key")) ])
              (live_run_live (Scenario.firstPoll ++ [Tick]) start _ live_start eq_refl)
              eq_refl (le_n 1) eq_refl eq_refl eq_refl eq_refl)
    as [rt' [Hrun [Hc [Hk [_ [_ [_ [Hl He]]]]]]]].
  exists rt'. repeat split; assumption.
Defined.

(** ** The dashboard after a poll *)

(** X10: during a session on screen, an ok metrics response whose body
    is an object with four figures React can show brings up the
    dashboard with those figures on the cards; the newest point of
    each chart row is the figure on the corresponding card, labelled
    with the time of the response.  If one of the four figures is an
    object, React unmounts the tree instead. *)
Theorem dashboard_shows_latest_poll : forall rt i res props now,
  mounts (app rt) = true ->
  connected (app rt) = true ->
  i < length (metricsInFlight rt) ->
  ok res = true -> body res = Some (VObj props) ->
  if renderable (read (VObj props) (lit "total_requests")) &&
     renderable (read (VObj props) (lit "rate_limited_requests")) &&
     renderable (read (VObj props) (lit "average_latency_ms")) &&
     renderable (read (VObj props) (lit "p95_latency_ms"))
  then
    exists rt' d,
      live_step rt (MetricsSettled i (Responded res) now) = Some rt' /\
      render (app rt') = DashboardView d /\
      totalRequests d = read (VObj props) (lit "total_requests") /\
      rateLimitedRequests d = read (VObj props) (lit "rate_limited_requests") /\
      averageLatency d = read (VObj props) (lit "average_latency_ms") /\
      p95Latency d = read (VObj props) (lit "p95_latency_ms") /\
      last (requestsSeries d) VUndefined = totalRequests d /\
      last (rateLimitedSeries d) VUndefined = rateLimitedRequests d /\
      last (labels d) [] = now
  else
    live_step rt (MetricsSettled i (Responded res) now) = None.
Proof.
  intros rt i res props now Hm Hc Hi Hok Hb.
  assert (S : successful (Responded res) = true) by (simpl; rewrite Hok, Hb; reflexivity).
  destruct (fetchMetrics_success (Responded res) now (app rt) S)
    as [res' [data [Er [Eb Hf]]]].
  injection Er as <-. rewrite Hb in Eb. injection Eb as <-.
  pose proof (step_metrics _ _ _ _ _ Hi Hf) as Hs.
  rewrite commit_unchanged in Hs by (simpl; congruence).
  match type of Hs with _ = Some ?r => set (rt1 := r) in * end.
  assert (M : mounts (app rt1) =
              renderable (read (VObj props) (lit "total_requests")) &&
              renderable (read (VObj props) (lit "rate_limited_requests")) &&
              renderable (read (VObj props) (lit "average_latency_ms")) &&
              renderable (read (VObj props) (lit "p95_latency_ms"))).
  { unfold rt1, mounts, render. simpl. rewrite Hc. reflexivity. }
  rewrite <- M.
  destruct (mounts (app rt1)) eqn:M1.
  - exists rt1. eexists. split; [exact (live_step_intro _ _ _ Hm Hs M1)|].
    unfold rt1, render; simpl. rewrite Hc. simpl.
    split; [reflexivity|]. simpl.
    rewrite !map_app. cbn [map]. rewrite !last_last.
    unfold sampleOf; simpl. destruct res as [st b]; simpl in Hb; subst b.
    repeat split.
  - exact (live_step_unmounts _ _ _ Hs M1).
Qed.

Lemma dashboard_shows_latest_poll_witness :
  exists rt' d,
    live_step (Scenario.after (Scenario.firstPoll ++ [Tick]))
              (MetricsSettled 0 (Scenario.ok200 70) (lit "10:00:02")) = Some rt' /\
    render (app rt') = DashboardView d /\
    totalRequests d = VNum 70 /\
    last (requestsSeries d) VUndefined = VNum 70.
Proof.
  destruct (dashboard_shows_latest_poll
              (Scenario.after (Scenario.firstPoll ++ [Tick])) 0
              {| status := 200; body := Some (Scenario.snapshot 70) |}
              [ (lit "total_requests", VNum 70);
                (lit "rate_limited_requests", VNum 0);
                (lit "average_latency_ms", VNum 5);
                (lit "p95_latency_ms", VNum 12) ]
              (lit "10:00:02") eq_refl eq_refl (le_n 1) eq_refl eq_refl)
    as [rt' [d [Hs [Hr [Ht [_ [_ [_ [Hl _]]]]]]]]].
  exists rt', d. split; [exact Hs|]. split; [exact Hr|].
  split; [exact Ht|]. rewrite Hl. exact Ht.
Defined.

(** ** What can unmount the tree *)

Lemma render_login_inv s m k : render s = LoginView m k -> connected s = false.
Proof.
  unfold render. destruct (connected s); simpl; [|reflexivity].
  destruct (negb (truthy (metrics s))); discriminate.
Qed.

(** X15: only a metrics response can make React unmount the tree.
    From a state on screen, every other event that can happen -- typing,
    Connect, Logout, the theme button, a tick, a health response --
    leaves the tree on screen. *)
Theorem only_a_metrics_response_unmounts : forall rt e rt',
  live rt -> step rt e = Some rt' -> isMetricsSettled e = false ->
  live_step rt e = Some rt'.
Proof.
  intros rt e rt' Hl Hs He.
  pose proof (live_mounts rt Hl) as Hm.
  pose proof (live_error_renderable rt Hl) as Hr.
  apply (live_step_intro _ _ _ Hm Hs).
  destruct e; simpl in He; try discriminate; simpl in Hs.
  - destruct (render (app rt)) eqn:R; inversion Hs; subst; clear Hs.
    rewrite app_commit. rewrite mounts_login; [exact Hr|].
    exact (render_login_inv _ _ _ R).
  - destruct (render (app rt)) eqn:R; inversion Hs; subst; clear Hs.
    rewrite app_commit. unfold connectClick.
    destruct (trim (apiKey (app rt))).
    + rewrite mounts_login; [reflexivity|]. exact (render_login_inv _ _ _ R).
    + reflexivity.
  - destruct (render (app rt)) eqn:R; inversion Hs; subst; clear Hs.
    rewrite app_commit. rewrite mounts_login by reflexivity. exact Hr.
  - destruct (render (app rt)) eqn:R; inversion Hs; subst; clear Hs.
    rewrite app_commit. rewrite <- Hm. unfold mounts, render. simpl.
    destruct (connected (app rt)); simpl; [|reflexivity].
    destruct (truthy (metrics (app rt))); reflexivity.
  - destruct (interval rt); inversion Hs; subst; clear Hs. exact Hm.
  - destruct (healthInFlight rt); inversion Hs; subst; clear Hs.
    rewrite app_commit. destruct (fetchHealth_sets r (app rt)) as [h ->].
    rewrite mounts_setHealth. exact Hm.
Qed.

Lemma only_a_metrics_response_unmounts_witness :
  live_step (Scenario.after Scenario.firstPoll) ClickLogout =
  Some (Scenario.after (Scenario.firstPoll ++ [ClickLogout])).
Proof.
  exact (only_a_metrics_response_unmounts
           (Scenario.after Scenario.firstPoll) ClickLogout
           (Scenario.after (Scenario.firstPoll ++ [ClickLogout]))
           (live_run_live Scenario.firstPoll start _ live_start eq_refl)
           eq_refl eq_refl).
Defined.

(** * The unauthenticated viewer *)

Lemma viewer_element_truthy m :
  truthy m = true ->
  Viewer.element m =
    (items <- Viewer.entries (read m (lit "endpoint_hits")) ;;
     Normal (Viewer.Overview (read m (lit "total_requests"))
                             (read m (lit "rate_limited_requests"))
                             (read m (lit "average_latency_ms"))
                             (read m (lit "persisted_events")) items)).
Proof.
  intros T. unfold Viewer.element. rewrite T. simpl.
  assert (N : nullish m = false) by (destruct m; simpl in *; congruence).
  rewrite !read_get by exact N. reflexivity.
Qed.

(** X14: while the stored metrics are falsy the viewer shows the
    loading line and never throws.  Once they are truthy, rendering
    throws when [endpoint_hits] is missing or [null] -- so a snapshot
    in the format of the authenticated dashboard makes it throw --
    and, when [endpoint_hits] is an object, it shows the four figures
    and one list item per property exactly if React can show every
    figure and every count; if one of them is an object the page is
    unmounted. *)
Theorem viewer_needs_endpoint_hits :
  (forall m, truthy m = false -> Viewer.render m = Normal Viewer.Loading) /\
  (forall m,
     truthy m = true -> nullish (read m (lit "endpoint_hits")) = true ->
     Viewer.render m = Throw) /\
  (forall m hits,
     truthy m = true -> read m (lit "endpoint_hits") = VObj hits ->
     Viewer.render m =
       if renderable (read m (lit "total_requests")) &&
          renderable (read m (lit "rate_limited_requests")) &&
          renderable (read m (lit "average_latency_ms")) &&
          renderable (read m (lit "persisted_events")) &&
          forallb (fun item => renderable (snd item)) hits
       then Normal (Viewer.Overview (read m (lit "total_requests"))
                                    (read m (lit "rate_limited_requests"))
                                    (read m (lit "average_latency_ms"))
                                    (read m (lit "persisted_events")) hits)
       else Throw) /\
  (forall n, Viewer.render (Scenario.snapshot n) = Throw).
Proof.
  assert (B : forall m,
            truthy m = true -> nullish (read m (lit "endpoint_hits")) = true ->
            Viewer.render m = Throw).
  { intros m T N. unfold Viewer.render. rewrite (viewer_element_truthy m T).
    destruct (read m (lit "endpoint_hits")); try discriminate; reflexivity. }
  split; [|split; [exact B|split]].
  - intros m T. unfold Viewer.render, Viewer.element. rewrite T. reflexivity.
  - intros m hits T H. unfold Viewer.render.
    rewrite (viewer_element_truthy m T), H. reflexivity.
  - intros n. apply B; reflexivity.
Qed.
